(** * python_audits.py: the audit suite of Dutch Recruitment Intelligence

    A shallow embedding of [python_audits.py] (the result and report data
    model, the six check runners of [LinkedInAutomationAuditor], the
    recommendation engine, [run_full_audit] and [AuditReport.to_dict]) and
    the theorems that settle the properties stated about it.

    Conventions of the embedding.
    - A Python [str] is a [string]; its characters are the code points
      below 256.
    - A Python [int] is a [Z]; [len] of a container is a [nat], injected
      with [Z.of_nat] where Python stores it.
    - A [dict] is an association list in insertion order, with distinct
      keys.
    - Exceptions are values of [exn]; a computation that can raise returns
      an [outcome].  The runners read the clock each time they build an
      [AuditResult]; the number of readings so far is threaded by the
      monad [M].
    - Console logging ([self.log], [print]) is not part of the model, nor
      are [save_report], [_generate_markdown_report] and [main], which
      write the report out and parse the command line. *)

From Stdlib Require Import String Ascii List ZArith Lia Bool Arith.
From Stdlib Require Import Numbers.DecimalString.
Import ListNotations.
Open Scope string_scope.
Set Warnings "-register-all".

(* ===================================================================== *)
(** ** Python values, exceptions and string primitives *)
(* ===================================================================== *)

(** What [json.load] can return, and what a [details] mapping can hold. *)
Inductive value : Type :=
| VNone
| VBool (b : bool)
| VInt (z : Z)
| VFloat (literal : string)
| VStr (s : string)
| VList (items : list value)
| VDict (entries : list (string * value)).

Definition dict : Type := list (string * value).

(** The exception classes the program can meet. [HTTPError] is a subclass of
    [URLError] and [JSONDecodeError] one of [ValueError]; every class here
    derives from [Exception]. *)
Inductive exn : Type :=
| URLError (reason : string)
| HTTPError (code : Z) (msg : string)
| JSONDecodeError (msg : string)
| UnicodeDecodeError (msg : string)
| OSError (msg : string)
| AttributeError (msg : string)
| TypeError (msg : string)
| OtherException (cls msg : string).

Inductive outcome (A : Type) : Type :=
| Ok (a : A)
| Raise (e : exn).

Arguments Ok {A} a.
Arguments Raise {A} e.

(** [str(n)] for an [int]. *)
Definition str_of_Z (z : Z) : string := NilZero.string_of_int (Z.to_int z).

Definition str_of_nat (n : nat) : string := str_of_Z (Z.of_nat n).

(** [str(b)] for a [bool]. *)
Definition str_of_bool (b : bool) : string := if b then "True" else "False".

(** [str(e)] for an exception. *)
Definition str_of_exn (e : exn) : string :=
  match e with
  | URLError reason => "<urlopen error " ++ reason ++ ">"
  | HTTPError code msg => "HTTP Error " ++ str_of_Z code ++ ": " ++ msg
  | JSONDecodeError msg => msg
  | UnicodeDecodeError msg => msg
  | OSError msg => msg
  | AttributeError msg => msg
  | TypeError msg => msg
  | OtherException _ msg => msg
  end.

(** [isinstance(e, urllib.error.URLError)] *)
Definition is_URLError (e : exn) : bool :=
  match e with
  | URLError _ | HTTPError _ _ => true
  | _ => false
  end.

(** [isinstance(e, json.JSONDecodeError)] *)
Definition is_JSONDecodeError (e : exn) : bool :=
  match e with
  | JSONDecodeError _ => true
  | _ => false
  end.

(** [sub in s] for two strings. *)
Fixpoint str_in (sub s : string) : bool :=
  String.prefix sub s ||
  match s with
  | EmptyString => false
  | String _ s' => str_in sub s'
  end.

(** [c.lower()] on one code point below 256: the ASCII capitals and the
    Latin-1 capitals (U+00C0..U+00DE without U+00D7) move up by 32. *)
Definition lower_ascii (c : ascii) : ascii :=
  let n := nat_of_ascii c in
  if (((65 <=? n) && (n <=? 90)) ||
      ((192 <=? n) && (n <=? 222) && negb (n =? 215)))%nat
  then ascii_of_nat (n + 32)
  else c.

(** [s.lower()] *)
Fixpoint lower (s : string) : string :=
  match s with
  | EmptyString => EmptyString
  | String c s' => String (lower_ascii c) (lower s')
  end.

(** [c.isspace()] on one code point below 256. *)
Definition isspace (c : ascii) : bool :=
  let n := nat_of_ascii c in
  (((9 <=? n) && (n <=? 13)) || ((28 <=? n) && (n <=? 32)) ||
   (n =? 133) || (n =? 160))%nat.

(** [s.split()] without arguments: the maximal runs of characters that are
    not whitespace. [word] is the run being read. *)
Fixpoint split_from (word s : string) : list string :=
  match s with
  | EmptyString => if String.eqb word "" then [] else [word]
  | String c s' =>
      if isspace c
      then (if String.eqb word "" then split_from "" s'
            else word :: split_from "" s')
      else split_from (word ++ String c EmptyString) s'
  end.

Definition split (s : string) : list string := split_from "" s.

(** [fnmatch] for the patterns the program uses: [*] stands for any run of
    characters, every other character for itself. *)
Fixpoint fnmatch (pattern name : string) : bool :=
  match pattern with
  | EmptyString =>
      match name with EmptyString => true | _ => false end
  | String p pattern' =>
      if Ascii.eqb p "*"%char
      then (fix star (n : string) : bool :=
              fnmatch pattern' n ||
              match n with
              | EmptyString => false
              | String _ n' => star n'
              end) name
      else match name with
           | EmptyString => false
           | String c name' => Ascii.eqb p c && fnmatch pattern' name'
           end
  end.

(** [d.get(key, default)] on a [dict]. *)
Fixpoint dict_get (key : string) (d : dict) : option value :=
  match d with
  | [] => None
  | (k, v) :: d' => if String.eqb k key then Some v else dict_get key d'
  end.

Definition type_name (v : value) : string :=
  match v with
  | VNone => "NoneType"
  | VBool _ => "bool"
  | VInt _ => "int"
  | VFloat _ => "float"
  | VStr _ => "str"
  | VList _ => "list"
  | VDict _ => "dict"
  end.

(** [data.get(key, default)] on whatever [json.load] returned: only a [dict]
    has the method. *)
Definition py_get (data : value) (key : string) (default : value)
  : outcome value :=
  match data with
  | VDict d =>
      Ok (match dict_get key d with Some v => v | None => default end)
  | _ => Raise (AttributeError
                  ("'" ++ type_name data ++ "' object has no attribute 'get'"))
  end.

(** [len(v)] *)
Definition py_len (v : value) : outcome nat :=
  match v with
  | VStr s => Ok (String.length s)
  | VList l => Ok (List.length l)
  | VDict d => Ok (List.length d)
  | _ => Raise (TypeError
                  ("object of type '" ++ type_name v ++ "' has no len()"))
  end.

(** [isinstance(v, dict)] *)
Definition is_dict (v : value) : bool :=
  match v with
  | VDict _ => true
  | _ => false
  end.

(** [isinstance(v, list)] *)
Definition is_list (v : value) : bool :=
  match v with
  | VList _ => true
  | _ => false
  end.

(** [max(xs, key=key)] on a list that is not empty: the first item whose key
    no other item exceeds. *)
Definition max_by {A : Type} (key : A -> Z) (x : A) (xs : list A) : A :=
  fold_left (fun best y => if (key best <? key y)%Z then y else best) xs x.

(** Truth value of a list. *)
Definition nonempty {A : Type} (l : list A) : bool :=
  match l with
  | [] => false
  | _ :: _ => true
  end.

(** The functions of Python's library that the program calls and that are
    taken as given: [json.loads] on the text of a file, [re.findall] with
    the flag [re.IGNORECASE], and [str] on a parsed JSON value. *)
Inductive re_flag : Type := IGNORECASE.

Class PyLib : Type := {
  json_loads : string -> outcome value;
  re_findall : string -> string -> re_flag -> list string;
  str_of_value : value -> string
}.

(* ===================================================================== *)
(** ** Exceptions and the clock: the monad of the runners *)
(* ===================================================================== *)

(** A computation maps the number of clock readings made so far to its
    result (or the exception it raised) and the new number of readings. *)
Definition M (A : Type) : Type := nat -> outcome A * nat.

Definition ret {A : Type} (a : A) : M A := fun t => (Ok a, t).

Definition bind {A B : Type} (c : M A) (k : A -> M B) : M B :=
  fun t =>
    match c t with
    | (Ok a, t') => k a t'
    | (Raise e, t') => (Raise e, t')
    end.

(** A call that may raise and reads no clock. *)
Definition lift {A : Type} (o : outcome A) : M A := fun t => (o, t).

(** [try: body except cls as e: handler e], where [handles] tells the
    exceptions of class [cls]. *)
Definition try_except {A : Type} (body : M A) (handles : exn -> bool)
  (handler : exn -> M A) : M A :=
  fun t =>
    match body t with
    | (Ok a, t') => (Ok a, t')
    | (Raise e, t') => if handles e then handler e t' else (Raise e, t')
    end.

Declare Scope audit_scope.
Delimit Scope audit_scope with audit.
Notation "x <- c ;; k" := (bind c (fun x => k))
  (at level 61, c at next level, right associativity) : audit_scope.
Open Scope audit_scope.

(** [for x in xs: results.append(body x)] *)
Fixpoint forM {A B : Type} (body : A -> M B) (xs : list A) : M (list B) :=
  match xs with
  | [] => ret []
  | x :: xs' =>
      r <- body x ;;
      rs <- forM body xs' ;;
      ret (r :: rs)
  end.

(* ===================================================================== *)
(** ** The filesystem the auditor reads *)
(* ===================================================================== *)

(** A file carries its size, its modification time and what reading it as
    text gives, for [encoding='utf-8'] and for the locale's encoding (the
    two ways the program opens files). A directory carries its entries in
    the order the system lists them. *)
Inductive node : Type :=
| File (st_size st_mtime : Z) (text_utf8 text_locale : outcome string)
| Dir (st_size st_mtime : Z) (entries : list (string * node)).

Inductive encoding : Type := utf8 | locale.

(** A [pathlib.Path]: its text, its last component, and the node found
    there ([None] when nothing exists at the path). *)
Record Path : Type := {
  path_str : string;
  path_name : string;
  target : option node
}.

Fixpoint lookup (name : string) (entries : list (string * node))
  : option node :=
  match entries with
  | [] => None
  | (n, x) :: entries' =>
      if String.eqb n name then Some x else lookup name entries'
  end.

Definition entries_of (p : Path) : list (string * node) :=
  match target p with
  | Some (Dir _ _ entries) => entries
  | _ => []
  end.

(** [p / name] *)
Definition child (p : Path) (name : string) : Path :=
  {| path_str := path_str p ++ "/" ++ name;
     path_name := name;
     target := lookup name (entries_of p) |}.

(** [p.exists()] *)
Definition path_exists (p : Path) : bool :=
  match target p with
  | Some _ => true
  | None => false
  end.

(** [p.is_dir()] *)
Definition is_dir (p : Path) : bool :=
  match target p with
  | Some (Dir _ _ _) => true
  | _ => false
  end.

(** [list(p.iterdir())] *)
Definition iterdir (p : Path) : list Path :=
  map (fun e => {| path_str := path_str p ++ "/" ++ fst e;
                   path_name := fst e;
                   target := Some (snd e) |}) (entries_of p).

(** [list(p.glob(pattern))] for a pattern without a separator: the entries
    of [p] whose name matches; nothing when [p] is not a directory. *)
Definition glob (p : Path) (pattern : string) : list Path :=
  filter (fun q => fnmatch pattern (path_name q)) (iterdir p).

(** [p.stat().st_size] and [p.stat().st_mtime] of a path that exists. *)
Definition stat_size (p : Path) : Z :=
  match target p with
  | Some (File size _ _ _) => size
  | Some (Dir size _ _) => size
  | None => 0%Z
  end.

Definition stat_mtime (p : Path) : Z :=
  match target p with
  | Some (File _ mtime _ _) => mtime
  | Some (Dir _ mtime _) => mtime
  | None => 0%Z
  end.

(** [with open(p, 'r', encoding=...) as f: f.read()] *)
Definition read_text (enc : encoding) (p : Path) : outcome string :=
  match target p with
  | Some (File _ _ text_utf8 text_locale) =>
      match enc with
      | utf8 => text_utf8
      | locale => text_locale
      end
  | Some (Dir _ _ _) =>
      Raise (OSError ("[Errno 21] Is a directory: '" ++ path_str p ++ "'"))
  | None =>
      Raise (OSError
               ("[Errno 2] No such file or directory: '" ++ path_str p ++ "'"))
  end.

(* ===================================================================== *)
(** ** The network and the world *)
(* ===================================================================== *)

(** A [urllib.request.Request]. *)
Record Request : Type := {
  url : string;
  method : string;
  headers : list (string * string);
  data : option string
}.

(** Everything outside the program that a run observes: the directory of
    the script, what [urlopen(req, timeout)] does (the status code of the
    response it returns, or the exception it raises), and the clock
    ([clock n] is the text of the [n]-th reading of
    [datetime.now().isoformat()]). *)
Record World : Type := {
  BASE_DIR : Path;
  urlopen : Request -> Z -> outcome Z;
  clock : nat -> string
}.

(* ===================================================================== *)
(** ** Data model *)
(* ===================================================================== *)

(** Single audit check result. *)
Record AuditResult : Type := {
  name : string;
  status : string;
  message : string;
  details : option dict;
  timestamp : string
}.

(** Complete audit report. ([report_timestamp] is the field [timestamp] of
    the source.) *)
Record AuditReport : Type := {
  title : string;
  report_timestamp : string;
  summary : dict;
  file_audit : list AuditResult;
  endpoint_audit : list AuditResult;
  data_audit : list AuditResult;
  content_audit : list AuditResult;
  security_audit : list AuditResult;
  code_audit : list AuditResult;
  recommendations : list string
}.



(** The auditor: [self.base_dir] and [self.server_url]. *)
Record LinkedInAutomationAuditor : Type := {
  base_dir : Path;
  server_url : string
}.

(* ===================================================================== *)
(** ** Configuration of [LinkedInAutomationAuditor] *)
(* ===================================================================== *)

(** The character U+0022, which the patterns below contain. *)
Definition dq : string := String (ascii_of_nat 34) EmptyString.

Definition REQUIRED_FILES : list string :=
  ["zapier-webhook-server.cjs";
   "linkedin-content-creator.cjs";
   "dutch-recruitment-news-scraper.cjs";
   "google-sheets-uploader.cjs";
   "complete-automation-flow.cjs";
   "package.json"].

Definition REQUIRED_DIRS : list string := ["data"; "content"; "reports"].

(** The mapping of endpoint to method, in insertion order. *)
Definition ENDPOINTS : list (string * string) :=
  [("/status", "GET");
   ("/test", "GET");
   ("/reports", "GET");
   ("/daily-news-collection", "POST");
   ("/upload-to-sheets", "POST");
   ("/weekly-content-creation", "POST");
   ("/get-top-articles", "GET")].

Definition CONTENT_TYPES : list string :=
  ["weeklyRoundup"; "insightPost"; "trendAnalysis"; "longFormArticle"].

(** The pairs of regular expression and issue name. *)
Definition SECURITY_PATTERNS : list (string * string) :=
  [("(api_key|apikey)\s*[=:]\s*[" ++ dq ++ "\'][^" ++ dq ++ "\']{10,}["
      ++ dq ++ "\']", "Hardcoded API key");
   ("(secret|password)\s*[=:]\s*[" ++ dq ++ "\'][^" ++ dq ++ "\']{8,}["
      ++ dq ++ "\']", "Hardcoded secret/password");
   ("(token)\s*[=:]\s*[" ++ dq ++ "\'][^" ++ dq ++ "\']{20,}["
      ++ dq ++ "\']", "Hardcoded token");
   ("eval\s*\(", "Unsafe eval() usage");
   ("innerHTML\s*=", "Potential XSS via innerHTML")].

(* ===================================================================== *)
(** ** The check runners *)
(* ===================================================================== *)

Section Auditor.

Context {lib : PyLib}.
Variable w : World.
Variable self : LinkedInAutomationAuditor.

Definition DATA_DIR : Path := child (BASE_DIR w) "data".
Definition CONTENT_DIR : Path := child (BASE_DIR w) "content".

(** [AuditResult(name=..., status=..., message=..., details=...)]: the
    timestamp is read from the clock at construction. *)
Definition new_AuditResult (name status message : string)
  (details : option dict) : M AuditResult :=
  fun t =>
    (Ok {| name := name; status := status; message := message;
           details := details; timestamp := clock w t |}, S t).

(** [datetime.now().isoformat()] *)
Definition now : M string := fun t => (Ok (clock w t), S t).

(** [json.load] on a file opened with [encoding='utf-8']. *)
Definition json_load (p : Path) : outcome value :=
  match read_text utf8 p with
  | Ok text => json_loads text
  | Raise e => Raise e
  end.

(** *** [audit_files] *)

(** Body of the loop over [REQUIRED_FILES]. *)
Definition check_required_file (filename : string) : M AuditResult :=
  let filepath := child (base_dir self) filename in
  if path_exists filepath then
    let size := stat_size filepath in
    new_AuditResult ("file_" ++ filename) "pass"
      (filename ++ " exists (" ++ str_of_Z size ++ " bytes)")
      (Some [("path", VStr (path_str filepath)); ("size", VInt size)])
  else
    new_AuditResult ("file_" ++ filename) "fail"
      (filename ++ " is missing") None.

(** Body of the loop over [REQUIRED_DIRS]. *)
Definition check_required_dir (dirname : string) : M AuditResult :=
  let dirpath := child (base_dir self) dirname in
  if path_exists dirpath && is_dir dirpath then
    let file_count := List.length (iterdir dirpath) in
    new_AuditResult ("dir_" ++ dirname) "pass"
      (dirname ++ "/ exists (" ++ str_of_nat file_count ++ " items)")
      (Some [("path", VStr (path_str dirpath));
             ("items", VInt (Z.of_nat file_count))])
  else
    new_AuditResult ("dir_" ++ dirname) "warn"
      (dirname ++ "/ is missing") None.

Definition audit_files : M (list AuditResult) :=
  files <- forM check_required_file REQUIRED_FILES ;;
  dirs <- forM check_required_dir REQUIRED_DIRS ;;
  ret (files ++ dirs)%list.

(** *** [audit_endpoints] *)

(** The request built for one endpoint. *)
Definition endpoint_request (endpoint method : string) : Request :=
  let url := server_url self ++ endpoint in
  if String.eqb method "POST"
  then {| url := url; method := method;
          headers := [("Content-Type", "application/json")];
          data := Some "{}" |}
  else {| url := url; method := method; headers := []; data := None |}.

(** Body of the loop over [ENDPOINTS]: the [try] with its two handlers. *)
Definition probe_endpoint (item : string * string) : M AuditResult :=
  let '(endpoint, method) := item in
  match urlopen w (endpoint_request endpoint method) 10%Z with
  | Ok status_code =>
      if (status_code =? 200)%Z then
        new_AuditResult ("endpoint_" ++ endpoint) "pass"
          (method ++ " " ++ endpoint ++ " - HTTP " ++ str_of_Z status_code)
          (Some [("method", VStr method); ("status", VInt status_code)])
      else
        new_AuditResult ("endpoint_" ++ endpoint) "warn"
          (method ++ " " ++ endpoint ++ " - HTTP " ++ str_of_Z status_code)
          (Some [("method", VStr method); ("status", VInt status_code)])
  | Raise e =>
      if is_URLError e then
        new_AuditResult ("endpoint_" ++ endpoint) "fail"
          (method ++ " " ++ endpoint ++ " - Connection failed")
          (Some [("error", VStr (str_of_exn e))])
      else
        new_AuditResult ("endpoint_" ++ endpoint) "fail"
          (method ++ " " ++ endpoint ++ " - Error: " ++ str_of_exn e)
          (Some [("error", VStr (str_of_exn e))])
  end.

Definition audit_endpoints : M (list AuditResult) :=
  forM probe_endpoint ENDPOINTS.

(** *** [audit_data] *)

(** Check latest-dutch-news.json. *)
Definition check_latest_news : M AuditResult :=
  let news_file := child DATA_DIR "latest-dutch-news.json" in
  if path_exists news_file then
    try_except
      (data <- lift (json_load news_file) ;;
       total_articles <- lift (py_get data "totalArticles" (VInt 0)) ;;
       categories_value <- lift (py_get data "categories" (VList [])) ;;
       categories <- lift (py_len categories_value) ;;
       sources_value <- lift (py_get data "sources" (VList [])) ;;
       sources <- lift (py_len sources_value) ;;
       new_AuditResult "data_latest_news" "pass"
         ("latest-dutch-news.json: " ++ str_of_value total_articles
            ++ " articles, " ++ str_of_nat categories ++ " categories")
         (Some [("total_articles", total_articles);
                ("categories", VInt (Z.of_nat categories));
                ("sources", VInt (Z.of_nat sources))]))
      is_JSONDecodeError
      (fun e =>
         new_AuditResult "data_latest_news" "fail"
           ("latest-dutch-news.json: Invalid JSON - " ++ str_of_exn e) None)
  else
    new_AuditResult "data_latest_news" "warn"
      "latest-dutch-news.json not found" None.

(** [len(data) if isinstance(data, list) else 0] *)
Definition days_count_of (data : value) : nat :=
  match data with
  | VList items => List.length items
  | _ => 0
  end.

(** Check weekly-top-articles.json. *)
Definition check_weekly_articles : M AuditResult :=
  let weekly_file := child DATA_DIR "weekly-top-articles.json" in
  if path_exists weekly_file then
    try_except
      (data <- lift (json_load weekly_file) ;;
       let days_count := days_count_of data in
       new_AuditResult "data_weekly_articles"
         (if (3 <=? days_count)%nat then "pass" else "warn")
         ("weekly-top-articles.json: " ++ str_of_nat days_count
            ++ " days of data")
         (Some [("days", VInt (Z.of_nat days_count))]))
      is_JSONDecodeError
      (fun e =>
         new_AuditResult "data_weekly_articles" "fail"
           "weekly-top-articles.json: Invalid JSON" None)
  else
    new_AuditResult "data_weekly_articles" "warn"
      "weekly-top-articles.json not found - needed for LinkedIn content" None.

(** Check sheets backups. *)
Definition check_backups : M AuditResult :=
  let backup_files := glob DATA_DIR "sheets-backup-*.json" in
  new_AuditResult "data_backups"
    (if nonempty backup_files then "pass" else "info")
    ("Sheets backups: " ++ str_of_nat (List.length backup_files) ++ " files")
    (Some [("count", VInt (Z.of_nat (List.length backup_files)))]).

Definition audit_data : M (list AuditResult) :=
  news <- check_latest_news ;;
  weekly <- check_weekly_articles ;;
  backups <- check_backups ;;
  ret [news; weekly; backups].

(** *** [audit_linkedin_content] *)

(** Body of the loop over [CONTENT_TYPES]. *)
Definition count_content_type (content_type : string) : M AuditResult :=
  let files := glob CONTENT_DIR ("*-" ++ content_type ++ ".md") in
  let status := if nonempty files then "pass" else "info" in
  new_AuditResult ("content_" ++ content_type) status
    (content_type ++ ": " ++ str_of_nat (List.length files) ++ " files")
    (Some [("count", VInt (Z.of_nat (List.length files)));
           ("files", VList (map (fun f => VStr (path_name f)) files))]).

(** The three heuristics on the text of the latest file. *)
Definition word_count_of (content : string) : nat :=
  List.length (split content).

Definition has_hashtags_of (content : string) : bool := str_in "#" content.

Definition has_dutch_of (content : string) : bool :=
  existsb (fun word => str_in word (lower content))
    ["recruitment"; "nederlandse"; "arbeidsmarkt"].

(** Analyze latest content quality. *)
Definition analyze_latest_content (md_files : list Path)
  : M (list AuditResult) :=
  match md_files with
  | [] => ret []
  | f :: fs =>
      let latest_file := max_by stat_mtime f fs in
      content <- lift (read_text utf8 latest_file) ;;
      let word_count := word_count_of content in
      let has_hashtags := has_hashtags_of content in
      let has_dutch := has_dutch_of content in
      r <- new_AuditResult "content_quality"
             (if (100 <? word_count)%nat && has_hashtags && has_dutch
              then "pass" else "warn")
             ("Latest content: " ++ path_name latest_file ++ " ("
                ++ str_of_nat word_count ++ " words)")
             (Some [("file", VStr (path_name latest_file));
                    ("word_count", VInt (Z.of_nat word_count));
                    ("has_hashtags", VBool has_hashtags);
                    ("has_dutch_keywords", VBool has_dutch)]) ;;
      ret [r]
  end.

Definition audit_linkedin_content : M (list AuditResult) :=
  if negb (path_exists CONTENT_DIR) then
    r <- new_AuditResult "content_dir" "warn"
           "Content directory does not exist" None ;;
    ret [r]
  else
    by_type <- forM count_content_type CONTENT_TYPES ;;
    quality <- analyze_latest_content (glob CONTENT_DIR "*.md") ;;
    let metadata_files := glob CONTENT_DIR "*-metadata.json" in
    metadata <- new_AuditResult "content_metadata"
                  (if nonempty metadata_files then "pass" else "info")
                  ("Metadata files: "
                     ++ str_of_nat (List.length metadata_files))
                  (Some [("count",
                          VInt (Z.of_nat (List.length metadata_files)))]) ;;
    ret (by_type ++ quality ++ [metadata])%list.

(** *** [audit_security] *)

(** Scan of one source file: an unreadable file is logged and skipped. *)
Definition scan_file (js_file : Path) : list value :=
  match read_text utf8 js_file with
  | Ok content =>
      flat_map
        (fun item : string * string =>
           let '(pattern, issue_name) := item in
           let matches := re_findall pattern content IGNORECASE in
           if nonempty matches
           then [VDict [("file", VStr (path_name js_file));
                        ("issue", VStr issue_name);
                        ("matches", VInt (Z.of_nat (List.length matches)))]]
           else [])
        SECURITY_PATTERNS
  | Raise _ => []
  end.

(** Scan code files for security issues. *)
Definition check_code_scan : M AuditResult :=
  let js_files := glob (base_dir self) "*.cjs" in
  let issues_found := flat_map scan_file js_files in
  if nonempty issues_found then
    new_AuditResult "security_code_scan" "warn"
      ("Found " ++ str_of_nat (List.length issues_found)
         ++ " potential security issues")
      (Some [("issues", VList issues_found)])
  else
    new_AuditResult "security_code_scan" "pass"
      "No obvious security issues in code" None.

(** Check .env file. *)
Definition check_env_file : M (list AuditResult) :=
  let env_file := child (base_dir self) ".env" in
  if path_exists env_file then
    present <- new_AuditResult "security_env_file" "pass"
                 ".env file exists" None ;;
    env_content <- lift (read_text locale env_file) ;;
    let has_webhook_secret := str_in "WEBHOOK_SECRET" env_content in
    secret <- new_AuditResult "security_webhook_secret"
                (if has_webhook_secret then "pass" else "warn")
                ("WEBHOOK_SECRET: "
                   ++ (if has_webhook_secret then "configured"
                       else "not found")) None ;;
    ret [present; secret]
  else
    missing <- new_AuditResult "security_env_file" "warn"
                 ".env file not found" None ;;
    ret [missing].

(** Check .gitignore. *)
Definition check_gitignore : M (list AuditResult) :=
  let gitignore_file := child (base_dir self) ".gitignore" in
  if path_exists gitignore_file then
    gitignore_content <- lift (read_text locale gitignore_file) ;;
    let env_ignored := str_in ".env" gitignore_content in
    r <- new_AuditResult "security_gitignore"
           (if env_ignored then "pass" else "fail")
           (".env in .gitignore: " ++ str_of_bool env_ignored) None ;;
    ret [r]
  else ret [].

(** Check CORS configuration. *)
Definition check_cors : M (list AuditResult) :=
  let server_file := child (base_dir self) "zapier-webhook-server.cjs" in
  if path_exists server_file then
    server_content <- lift (read_text locale server_file) ;;
    let open_cors :=
      str_in "Access-Control-Allow-Origin', '*'" server_content in
    r <- new_AuditResult "security_cors"
           (if open_cors then "warn" else "pass")
           ("CORS: " ++ (if open_cors then "Open (*)" else "Restricted"))
           None ;;
    ret [r]
  else ret [].

Definition audit_security : M (list AuditResult) :=
  scan <- check_code_scan ;;
  env <- check_env_file ;;
  gitignore <- check_gitignore ;;
  cors <- check_cors ;;
  ret (scan :: env ++ gitignore ++ cors)%list.

(** *** [audit_code_quality] *)

Definition required_methods : list string :=
  ["runWeeklyContentCreation";
   "generateWeeklyRoundupPost";
   "generateInsightPost";
   "generateTrendAnalysisPost";
   "generateLongFormArticle";
   "analyzeWeeklyTrends"].

Definition templates : list string :=
  ["weeklyRoundup"; "insightPost"; "trendAnalysis"; "article"].

Definition endpoints_in_code : list string :=
  ["/daily-news-collection";
   "/upload-to-sheets";
   "/weekly-content-creation";
   "/get-top-articles";
   "/status";
   "/test";
   "/reports"].

(** Check LinkedIn content creator. *)
Definition check_creator : M (list AuditResult) :=
  let creator_file := child (base_dir self) "linkedin-content-creator.cjs" in
  if path_exists creator_file then
    content <- lift (read_text utf8 creator_file) ;;
    let found_methods :=
      filter (fun method => str_in method content) required_methods in
    let missing_methods :=
      filter (fun method => negb (str_in method content)) required_methods in
    methods <- new_AuditResult "code_linkedin_methods"
                 (if negb (nonempty missing_methods) then "pass" else "warn")
                 ("LinkedIn Creator: "
                    ++ str_of_nat (List.length found_methods) ++ "/"
                    ++ str_of_nat (List.length required_methods)
                    ++ " methods found")
                 (Some [("found", VList (map VStr found_methods));
                        ("missing", VList (map VStr missing_methods))]) ;;
    let found_templates := filter (fun t => str_in t content) templates in
    tpl <- new_AuditResult "code_templates"
             (if (List.length found_templates =? List.length templates)%nat
              then "pass" else "warn")
             ("Content templates: "
                ++ str_of_nat (List.length found_templates) ++ "/"
                ++ str_of_nat (List.length templates) ++ " configured")
             (Some [("templates", VList (map VStr found_templates))]) ;;
    ret [methods; tpl]
  else ret [].

(** Check webhook server endpoints. *)
Definition check_server_endpoints : M (list AuditResult) :=
  let server_file := child (base_dir self) "zapier-webhook-server.cjs" in
  if path_exists server_file then
    content <- lift (read_text utf8 server_file) ;;
    let found_endpoints :=
      filter (fun e => str_in e content) endpoints_in_code in
    r <- new_AuditResult "code_endpoints"
           (if (List.length found_endpoints
                  =? List.length endpoints_in_code)%nat
            then "pass" else "warn")
           ("Webhook endpoints: "
              ++ str_of_nat (List.length found_endpoints) ++ "/"
              ++ str_of_nat (List.length endpoints_in_code)
              ++ " implemented")
           (Some [("endpoints", VList (map VStr found_endpoints))]) ;;
    ret [r]
  else ret [].

(** The loop that counts the files containing a [try] block; a file that
    cannot be read raises. *)
Fixpoint count_try_catch (js_files : list Path) (files_with_try_catch : nat)
  : outcome nat :=
  match js_files with
  | [] => Ok files_with_try_catch
  | js_file :: rest =>
      match read_text utf8 js_file with
      | Ok content =>
          count_try_catch rest
            (if str_in "try {" content
             then files_with_try_catch + 1
             else files_with_try_catch)
      | Raise e => Raise e
      end
  end.

(** Check error handling. *)
Definition check_error_handling : M AuditResult :=
  let js_files := glob (base_dir self) "*.cjs" in
  files_with_try_catch <- lift (count_try_catch js_files 0) ;;
  new_AuditResult "code_error_handling"
    (if (3 <? files_with_try_catch)%nat then "pass" else "warn")
    ("Error handling: " ++ str_of_nat files_with_try_catch ++ "/"
       ++ str_of_nat (List.length js_files) ++ " files use try-catch")
    (Some [("files_with_handling", VInt (Z.of_nat files_with_try_catch));
           ("total_files", VInt (Z.of_nat (List.length js_files)))]).

Definition audit_code_quality : M (list AuditResult) :=
  creator <- check_creator ;;
  server <- check_server_endpoints ;;
  handling <- check_error_handling ;;
  ret (creator ++ server ++ [handling])%list.

(** *** [generate_recommendations] *)

Definition default_recommendations : list string :=
  ["Review generated LinkedIn content before manual posting";
   "Monitor endpoint response times in production";
   "Keep dependencies updated: npm update";
   "Test automation flow weekly to ensure reliability"].

(** [recommendations.append(advice)] when the rule holds. *)
Definition advise (rule : bool) (advice : string) : list string :=
  if rule then [advice] else [].

Definition generate_recommendations (all_results : list AuditResult)
  : list string :=
  let fails := filter (fun r => String.eqb (status r) "fail") all_results in
  let warns := filter (fun r => String.eqb (status r) "warn") all_results in
  (advise (existsb (fun r => str_in "cors" (lower (name r))) warns)
     "Consider restricting CORS to specific domains in production"
   ++ advise (existsb (fun r => str_in "env" (lower (name r)))
                (warns ++ fails))
     "Ensure .env file is properly configured with all required secrets"
   ++ advise (existsb (fun r => str_in "weekly" (lower (name r))
                               && negb (String.eqb (status r) "pass"))
                all_results)
     "Run daily uploads for at least 3 days before generating weekly LinkedIn content"
   ++ advise (existsb (fun r => str_in "content" (lower (name r))
                               && str_in "0 files" (message r))
                all_results)
     "Generate LinkedIn content using: node linkedin-content-creator.cjs create"
   ++ advise (existsb (fun r => str_in "backup" (lower (name r)))
                all_results)
     "Set up automated backups of the data directory"
   ++ advise (existsb (fun r => str_in "endpoint" (lower (name r))
                               && String.eqb (status r) "fail")
                all_results)
     "Ensure the webhook server is running: npm start"
   ++ default_recommendations)%list.

(** *** [run_full_audit] *)

(** [len([r for r in all_results if r.status == s])] *)
Definition count_status (s : string) (all_results : list AuditResult) : nat :=
  List.length (filter (fun r => String.eqb (status r) s) all_results).

Definition run_full_audit : M AuditReport :=
  _ <- now ;;
  file_results <- audit_files ;;
  endpoint_results <- audit_endpoints ;;
  data_results <- audit_data ;;
  content_results <- audit_linkedin_content ;;
  security_results <- audit_security ;;
  code_results <- audit_code_quality ;;
  let all_results :=
    (file_results ++ endpoint_results ++ data_results ++
     content_results ++ security_results ++ code_results)%list in
  let summary :=
    [("total_checks", VInt (Z.of_nat (List.length all_results)));
     ("passed", VInt (Z.of_nat (count_status "pass" all_results)));
     ("warnings", VInt (Z.of_nat (count_status "warn" all_results)));
     ("failed", VInt (Z.of_nat (count_status "fail" all_results)));
     ("info", VInt (Z.of_nat (count_status "info" all_results)))] in
  let recommendations := generate_recommendations all_results in
  report_time <- now ;;
  ret {| title := "Dutch Recruitment Intelligence - Audit Report";
         report_timestamp := report_time;
         summary := summary;
         file_audit := file_results;
         endpoint_audit := endpoint_results;
         data_audit := data_results;
         content_audit := content_results;
         security_audit := security_results;
         code_audit := code_results;
         recommendations := recommendations |}.

End Auditor.

(* ===================================================================== *)
(** ** Specification vocabulary *)
(* ===================================================================== *)

(** The four values of the status enumeration. *)
Definition valid_status (s : string) : Prop :=
  s = "pass" \/ s = "warn" \/ s = "fail" \/ s = "info".

Definition status_ok (r : AuditResult) : Prop := valid_status (status r).

(** [post c P]: whenever [c] returns a value, the value satisfies [P]. *)
Definition post {A : Type} (c : M A) (P : A -> Prop) : Prop :=
  forall t a t', c t = (Ok a, t') -> P a.

(** [d[key]] read as an [int], and [len(d[key])]. *)
Definition int_at (key : string) (d : dict) : option Z :=
  match dict_get key d with
  | Some (VInt z) => Some z
  | _ => None
  end.


(** The results of a report, in the order of the six categories. *)
Definition all_results_of (report : AuditReport) : list AuditResult :=
  (file_audit report ++ endpoint_audit report ++ data_audit report ++
   content_audit report ++ security_audit report ++ code_audit report)%list.

(* ===================================================================== *)
(** ** Sample worlds *)
(* ===================================================================== *)

(** A table of the library calls made on the texts of the sample worlds:
    the JSON texts below parse as shown, any other text is rejected; no
    sample source file matches a security pattern; only scalars are
    formatted. *)
Definition sample_json_loads (text : string) : outcome value :=
  if String.eqb text "[]" then Ok (VList [])
  else if String.eqb text "[1, 2]" then Ok (VList [VInt 1; VInt 2])
  else if String.eqb text "[1, 2, 3]" then
    Ok (VList [VInt 1; VInt 2; VInt 3])
  else if String.eqb text "{}" then Ok (VDict [])
  else if String.eqb text ("{" ++ dq ++ "totalArticles" ++ dq ++ ": 12}")
  then Ok (VDict [("totalArticles", VInt 12)])
  else Raise (JSONDecodeError "Expecting value: line 1 column 1 (char 0)").

Definition sample_str_of_value (v : value) : string :=
  match v with
  | VNone => "None"
  | VBool b => str_of_bool b
  | VInt z => str_of_Z z
  | VFloat literal => literal
  | VStr s => s
  | VList _ => "[...]"
  | VDict _ => "{...}"
  end.

Definition sample_lib : PyLib :=
  {| json_loads := sample_json_loads;
     re_findall := fun _ _ _ => [];
     str_of_value := sample_str_of_value |}.

(** A regular file holding [text], read alike in both encodings. *)
Definition text_file (text : string) (mtime : Z) : node :=
  File (Z.of_nat (String.length text)) mtime (Ok text) (Ok text).

Definition directory (entries : list (string * node)) : node :=
  Dir 4096 0 entries.

Definition root_of (entries : list (string * node)) : Path :=
  {| path_str := "/srv/app"; path_name := "app";
     target := Some (directory entries) |}.

Definition sample_clock (n : nat) : string :=
  "2025-01-06T09:00:00.0000" ++ str_of_nat n.

(** A server that answers every request with the status [code]. *)
Definition world_of (entries : list (string * node)) (code : Z) : World :=
  {| BASE_DIR := root_of entries;
     urlopen := fun _ _ => Ok code;
     clock := sample_clock |}.

(** A server that refuses every connection. *)
Definition offline_world (entries : list (string * node)) : World :=
  {| BASE_DIR := root_of entries;
     urlopen := fun _ _ => Raise (URLError "[Errno 111] Connection refused");
     clock := sample_clock |}.

Definition auditor_of (w : World) : LinkedInAutomationAuditor :=
  {| base_dir := BASE_DIR w; server_url := "http://localhost:3000" |}.

(** A post of two words. *)
Definition short_post : string := "#recruitment nieuws".

(** A project with every audited artifact in place. *)
Definition full_tree : list (string * node) :=
  [("zapier-webhook-server.cjs",
    text_file "try { res.setHeader('Access-Control-Allow-Origin', '*') }" 10);
   ("linkedin-content-creator.cjs",
    text_file "try { runWeeklyContentCreation() }" 11);
   ("dutch-recruitment-news-scraper.cjs", text_file "try { scrape() }" 12);
   ("google-sheets-uploader.cjs", text_file "try { upload() }" 13);
   ("complete-automation-flow.cjs", text_file "run()" 14);
   ("package.json", text_file "{}" 15);
   (".env", text_file "WEBHOOK_SECRET=s3cr3t" 16);
   (".gitignore", text_file "node_modules" 17);
   ("data", directory
      [("latest-dutch-news.json",
        text_file ("{" ++ dq ++ "totalArticles" ++ dq ++ ": 12}") 20);
       ("weekly-top-articles.json", text_file "[1, 2, 3]" 21);
       ("sheets-backup-2025-01-05.json", text_file "[]" 22)]);
   ("content", directory
      [("2025-01-05-weeklyRoundup.md", text_file "Overzicht van de week" 30);
       ("2025-01-06-insightPost.md", text_file short_post 31);
       ("2025-01-06-metadata.json", text_file "{}" 32)]);
   ("reports", directory [])].

Definition full_world : World := world_of full_tree 200.

(** A project directory with nothing in it, and no server. *)
Definition empty_world : World := offline_world [].

(** The content directory exists and has no entry. *)
Definition empty_content_world : World :=
  world_of [("content", directory [])] 200.

(** The latest-news artifact holds a JSON array. *)
Definition news_array_world : World :=
  world_of [("data", directory
               [("latest-dutch-news.json", text_file "[]" 20)])] 200.

(** The weekly artifact holds two days. *)
Definition two_days_world : World :=
  world_of [("data", directory
               [("weekly-top-articles.json", text_file "[1, 2]" 21)])] 200.

(** The data runner on the two-day world, evaluated. *)
Definition two_days_run : outcome (list AuditResult) * nat :=
  Eval vm_compute in @audit_data sample_lib two_days_world 0.

(** The content runner on the full project, evaluated. *)
Definition full_content_run : outcome (list AuditResult) * nat :=
  Eval vm_compute in audit_linkedin_content full_world 0.

(** The security runner on the full project, evaluated. *)
Definition full_security_run : outcome (list AuditResult) * nat :=
  Eval vm_compute in
    @audit_security sample_lib full_world (auditor_of full_world) 0.

(** The run on the full project, evaluated. *)
Definition full_run : outcome AuditReport * nat :=
  Eval vm_compute in
    @run_full_audit sample_lib full_world (auditor_of full_world) 0.

(* ===================================================================== *)
(** ** Vocabulary of the further properties *)
(* ===================================================================== *)

(** [p] can be opened and read as text in the encoding [enc]. *)
Definition readable (enc : encoding) (p : Path) : Prop :=
  exists text, read_text enc p = Ok text.

(** The computation [c], started after [t] clock readings, returns a value
    rather than raising. *)
Definition returns {A : Type} (c : M A) (t : nat) : Prop :=
  exists a t', c t = (Ok a, t').

(** The source file can be read and holds the text [try {]. *)
Definition has_try_block (js_file : Path) : bool :=
  match read_text utf8 js_file with
  | Ok content => str_in "try {" content
  | Raise _ => false
  end.

(** The pattern holds no [*]. *)
Fixpoint star_free (pattern : string) : bool :=
  match pattern with
  | EmptyString => true
  | String c pattern' => negb (Ascii.eqb c "*"%char) && star_free pattern'
  end.

(** A file that exists and cannot be decoded. *)
Definition binary_file (mtime : Z) : node :=
  File 4 mtime
    (Raise (UnicodeDecodeError
              "'utf-8' codec can't decode byte 0xff in position 0"))
    (Raise (UnicodeDecodeError
              "'utf-8' codec can't decode byte 0xff in position 0")).

(** A project whose content creator source cannot be decoded. *)
Definition binary_creator_world : World :=
  world_of [("linkedin-content-creator.cjs", binary_file 11)] 200.

(** The value a [dict] holds under [key], or [default]: what
    [d.get(key, default)] returns. *)
Definition value_at (key : string) (default : value) (d : dict) : value :=
  match dict_get key d with
  | Some v => v
  | None => default
  end.

(** A library whose parser also knows one object with a number under
    [categories]. *)
Definition categories_number_text : string :=
  "{" ++ dq ++ "categories" ++ dq ++ ": 5}".

Definition categories_number_lib : PyLib :=
  {| json_loads := fun text =>
       if String.eqb text categories_number_text
       then Ok (VDict [("categories", VInt 5)])
       else sample_json_loads text;
     re_findall := fun _ _ _ => [];
     str_of_value := sample_str_of_value |}.

Definition categories_number_world : World :=
  world_of [("data", directory
               [("latest-dutch-news.json",
                 text_file categories_number_text 20)])] 200.

(** A content directory whose latest markdown file cannot be decoded. *)
Definition binary_post_world : World :=
  world_of [("content", directory
               [("2025-01-05-weeklyRoundup.md", text_file short_post 30);
                ("2025-01-06-insightPost.md", binary_file 31)])] 200.

(** Two markdown files with the same modification time. *)
Definition tied_posts_world : World :=
  world_of [("content", directory
               [("a-weeklyRoundup.md", text_file short_post 30);
                ("b-insightPost.md", text_file "later in the listing" 30)])]
    200.

(* ===================================================================== *)
(** ** Reasoning rules for the monad *)
(* ===================================================================== *)

Lemma bind_returns {A B : Type} (c : M A) (k : A -> M B)
  (t : nat) (b : B) (t' : nat) :
  bind c k t = (Ok b, t') ->
  exists a t1, c t = (Ok a, t1) /\ k a t1 = (Ok b, t').
Proof.
  unfold bind. destruct (c t) as [[a | e] t1]; intro H.
  - exists a, t1. split; [reflexivity | exact H].
  - discriminate H.
Qed.

Lemma post_ret {A : Type} (a : A) (P : A -> Prop) : P a -> post (ret a) P.
Proof. intros Ha t a' t' H. injection H as <- _. exact Ha. Qed.

Lemma post_lift {A : Type} (o : outcome A) (P : A -> Prop) :
  (forall a, o = Ok a -> P a) -> post (lift o) P.
Proof. intros Ho t a t' H. injection H as -> _. apply Ho. reflexivity. Qed.

Lemma post_bind {A B : Type} (c : M A) (k : A -> M B)
  (P : A -> Prop) (Q : B -> Prop) :
  post c P -> (forall a, P a -> post (k a) Q) -> post (bind c k) Q.
Proof.
  intros Hc Hk t b t' H.
  destruct (bind_returns _ _ _ _ _ H) as (a & t1 & Ha & Hb).
  exact (Hk a (Hc _ _ _ Ha) _ _ _ Hb).
Qed.

Lemma post_try_except {A : Type} (body : M A) (handles : exn -> bool)
  (handler : exn -> M A) (P : A -> Prop) :
  post body P -> (forall e, handles e = true -> post (handler e) P) ->
  post (try_except body handles handler) P.
Proof.
  intros Hb Hh t a t' H. unfold try_except in H.
  destruct (body t) as [[a0 | e] t1] eqn:E.
  - injection H as <- _. exact (Hb _ _ _ E).
  - destruct (handles e) eqn:Eh; [| discriminate H].
    exact (Hh e Eh _ _ _ H).
Qed.

Lemma post_forM {A B : Type} (body : A -> M B) (xs : list A)
  (P : B -> Prop) :
  (forall x, In x xs -> post (body x) P) -> post (forM body xs) (Forall P).
Proof.
  induction xs as [| x xs IH]; intro Hbody; simpl.
  - apply post_ret. constructor.
  - apply post_bind with (P := P); [apply Hbody; left; reflexivity |].
    intros r Hr. apply post_bind with (P := Forall P).
    + apply IH. intros y Hy. apply Hbody. right. exact Hy.
    + intros rs Hrs. apply post_ret. constructor; assumption.
Qed.

Lemma post_new (w : World) (n s m : string) (d : option dict)
  (P : AuditResult -> Prop) :
  (forall ts, P {| name := n; status := s; message := m; details := d;
                   timestamp := ts |}) ->
  post (new_AuditResult w n s m d) P.
Proof. intros HP t a t' H. injection H as <- _. apply HP. Qed.

Lemma post_true {A : Type} (c : M A) : post c (fun _ => True).
Proof. intros t a t' _. exact I. Qed.

(** Decomposes the goal [post c (Forall Q)] (or [post c Q]) along the
    structure of [c]; what is left are the facts about the results built
    by [new_AuditResult] and about the lists returned. *)
Ltac post_steps Q :=
  repeat first
    [ apply post_new; intro
    | apply post_ret
    | apply post_forM; intros ? _
    | apply post_try_except; [| intros ? _]
    | match goal with
      | |- post (@bind AuditResult _ _ _) _ =>
          apply post_bind with (P := Q); [| intros ? ?]
      | |- post (@bind (list AuditResult) _ _ _) _ =>
          apply post_bind with (P := Forall Q); [| intros ? ?]
      | |- post (@bind _ _ _ _) _ =>
          apply post_bind with (P := fun _ => True);
          [apply post_true | intros ? _]
      | |- post (if ?b then _ else _) _ => destruct b
      | |- post (match ?x with _ => _ end) _ => destruct x
      end ].

Ltac list_facts :=
  repeat first
    [ assumption
    | apply Forall_nil
    | apply Forall_cons
    | apply Forall_app; split ].

(* ===================================================================== *)
(** ** The statuses the runners produce *)
(* ===================================================================== *)

Ltac status_facts :=
  list_facts;
  try (unfold status_ok, valid_status; simpl;
       repeat match goal with
              | |- context [if ?b then _ else _] => destruct b
              end; tauto).

Section Statuses.

Context {lib : PyLib}.
Variable w : World.
Variable self : LinkedInAutomationAuditor.

Lemma audit_files_statuses : post (audit_files w self) (Forall status_ok).
Proof.
  unfold audit_files, check_required_file, check_required_dir.
  post_steps status_ok; status_facts.
Qed.

Lemma audit_endpoints_statuses :
  post (audit_endpoints w self) (Forall status_ok).
Proof.
  unfold audit_endpoints. apply post_forM. intros [endpoint method] _.
  unfold probe_endpoint. post_steps status_ok; status_facts.
Qed.

Lemma audit_data_statuses : post (audit_data w) (Forall status_ok).
Proof.
  unfold audit_data, check_latest_news, check_weekly_articles, check_backups.
  post_steps status_ok; status_facts.
Qed.

Lemma audit_linkedin_content_statuses :
  post (audit_linkedin_content w) (Forall status_ok).
Proof.
  unfold audit_linkedin_content, count_content_type, analyze_latest_content.
  post_steps status_ok; status_facts.
Qed.

Lemma audit_security_statuses :
  post (audit_security w self) (Forall status_ok).
Proof.
  unfold audit_security, check_code_scan, check_env_file, check_gitignore,
    check_cors.
  post_steps status_ok; status_facts.
Qed.

Lemma audit_code_quality_statuses :
  post (audit_code_quality w self) (Forall status_ok).
Proof.
  unfold audit_code_quality, check_creator, check_server_endpoints,
    check_error_handling.
  post_steps status_ok; status_facts.
Qed.

End Statuses.

(** A list whose statuses are all in the enumeration is partitioned by the
    four tallies. *)
Lemma count_status_partition (rs : list AuditResult) :
  Forall status_ok rs ->
  count_status "pass" rs + count_status "warn" rs +
  count_status "fail" rs + count_status "info" rs = List.length rs.
Proof.
  unfold count_status.
  induction 1 as [| r rs Hr _ IH]; [reflexivity |].
  simpl. destruct Hr as [E | [E | [E | E]]]; rewrite E; simpl; lia.
Qed.

(* ===================================================================== *)
(** ** C1: the summary of a full audit *)
(* ===================================================================== *)

(** C1. Whenever [run_full_audit] returns a report, its summary holds the
    five counts, [total_checks] is the sum of [passed], [warnings],
    [failed] and [info], and it is the number of results in the six category
    lists together; every result of every runner has one of the four
    statuses. *)
Theorem run_full_audit_summary_invariant
  (lib : PyLib) (w : World) (self : LinkedInAutomationAuditor)
  (t : nat) (report : AuditReport) (t' : nat) :
  run_full_audit w self t = (Ok report, t') ->
  Forall status_ok (all_results_of report) /\
  exists total passed warnings failed info : Z,
    int_at "total_checks" (summary report) = Some total /\
    int_at "passed" (summary report) = Some passed /\
    int_at "warnings" (summary report) = Some warnings /\
    int_at "failed" (summary report) = Some failed /\
    int_at "info" (summary report) = Some info /\
    (total = passed + warnings + failed + info)%Z /\
    total = Z.of_nat (List.length (file_audit report) +
                      List.length (endpoint_audit report) +
                      List.length (data_audit report) +
                      List.length (content_audit report) +
                      List.length (security_audit report) +
                      List.length (code_audit report)).
Proof.
  revert t report t'.
  change (post (run_full_audit w self)
            (fun report =>
               Forall status_ok (all_results_of report) /\
               exists total passed warnings failed info : Z,
                 int_at "total_checks" (summary report) = Some total /\
                 int_at "passed" (summary report) = Some passed /\
                 int_at "warnings" (summary report) = Some warnings /\
                 int_at "failed" (summary report) = Some failed /\
                 int_at "info" (summary report) = Some info /\
                 (total = passed + warnings + failed + info)%Z /\
                 total = Z.of_nat (List.length (file_audit report) +
                                   List.length (endpoint_audit report) +
                                   List.length (data_audit report) +
                                   List.length (content_audit report) +
                                   List.length (security_audit report) +
                                   List.length (code_audit report)))).
  unfold run_full_audit.
  apply post_bind with (P := fun _ => True); [apply post_true | intros _ _].
  eapply post_bind; [apply audit_files_statuses | intros files Hfiles].
  eapply post_bind; [apply audit_endpoints_statuses | intros eps Heps].
  eapply post_bind; [apply audit_data_statuses | intros dat Hdat].
  eapply post_bind;
    [apply audit_linkedin_content_statuses | intros con Hcon].
  eapply post_bind; [apply audit_security_statuses | intros sec Hsec].
  eapply post_bind; [apply audit_code_quality_statuses | intros cod Hcod].
  apply post_bind with (P := fun _ => True); [apply post_true | intros ts _].
  apply post_ret.
  assert (Hall : Forall status_ok
                   (files ++ eps ++ dat ++ con ++ sec ++ cod)%list)
    by list_facts.
  split; [exact Hall |].
  unfold all_results_of, int_at; cbn [file_audit endpoint_audit data_audit
    content_audit security_audit code_audit summary dict_get String.eqb
    Ascii.eqb Bool.eqb].
  do 5 eexists. repeat (split; [reflexivity |]).
  pose proof (count_status_partition _ Hall) as Hsum.
  repeat rewrite length_app in *. split; lia.
Qed.

(** The run on the sample project returns a report, so the invariant is
    met by an actual run. *)
Lemma run_full_audit_summary_invariant_witness :
  exists report t',
    @run_full_audit sample_lib full_world (auditor_of full_world) 0
    = (Ok report, t') /\
    int_at "total_checks" (summary report) = Some 34%Z /\
    Forall status_ok (all_results_of report).
Proof.
  assert (E : @run_full_audit sample_lib full_world (auditor_of full_world) 0
              = full_run) by (vm_compute; reflexivity).
  unfold full_run in E.
  eexists. eexists. split; [exact E |].
  split; [reflexivity |].
  exact (proj1 (run_full_audit_summary_invariant _ _ _ _ _ _ E)).
Defined.

(* ===================================================================== *)
(** ** C9: the general recommendations *)
(* ===================================================================== *)

(** C9. For every list of results, the recommendations are the advice of
    the rules that fired followed by the same four general recommendations,
    so the last four entries are fixed and the list is never empty. *)
Theorem generate_recommendations_ends_with_defaults
  (all_results : list AuditResult) :
  (exists derived : list string,
     generate_recommendations all_results =
     (derived ++
      ["Review generated LinkedIn content before manual posting";
       "Monitor endpoint response times in production";
       "Keep dependencies updated: npm update";
       "Test automation flow weekly to ensure reliability"])%list /\
     List.length derived <= 6) /\
  skipn (List.length (generate_recommendations all_results) - 4)
    (generate_recommendations all_results) = default_recommendations /\
  generate_recommendations all_results <> [].
Proof.
  unfold generate_recommendations.
  set (fails := filter _ all_results).
  set (warns := filter _ all_results).
  set (a1 := advise _ _). set (a2 := advise _ _). set (a3 := advise _ _).
  set (a4 := advise _ _). set (a5 := advise _ _). set (a6 := advise _ _).
  assert (Hlen : forall b s, List.length (advise b s) <= 1)
    by (intros [] s; simpl; lia).
  assert (H1 := Hlen _ _ : List.length a1 <= 1).
  assert (H2 := Hlen _ _ : List.length a2 <= 1).
  assert (H3 := Hlen _ _ : List.length a3 <= 1).
  assert (H4 := Hlen _ _ : List.length a4 <= 1).
  assert (H5 := Hlen _ _ : List.length a5 <= 1).
  assert (H6 := Hlen _ _ : List.length a6 <= 1).
  assert (E : (a1 ++ a2 ++ a3 ++ a4 ++ a5 ++ a6 ++ default_recommendations
               = (a1 ++ a2 ++ a3 ++ a4 ++ a5 ++ a6)
                   ++ default_recommendations)%list)
    by (repeat rewrite <- app_assoc; reflexivity).
  rewrite E. clear E.
  set (derived := (a1 ++ a2 ++ a3 ++ a4 ++ a5 ++ a6)%list).
  split; [| split].
  - exists derived. split; [reflexivity |].
    unfold derived. repeat rewrite length_app. lia.
  - rewrite length_app.
    replace (List.length derived + List.length default_recommendations - 4)
      with (List.length derived + 0) by (simpl; lia).
    rewrite skipn_app, Nat.add_0_r, skipn_all.
    replace (List.length derived - List.length derived) with 0 by lia.
    reflexivity.
  - intro H. apply (f_equal (@List.length string)) in H.
    rewrite length_app in H. simpl in H. lia.
Qed.

(* ===================================================================== *)
(** ** C8: the structured form of a report *)
(* ===================================================================== *)


(* ===================================================================== *)
(** ** C2: the endpoint check runner *)
(* ===================================================================== *)

(** A loop whose body always returns, reading the clock once, returns one
    result per item, in order. *)
Lemma forM_returns {A B : Type} (body : A -> M B) (Q : A -> B -> Prop) :
  (forall x t, exists r, body x t = (Ok r, S t) /\ Q x r) ->
  forall xs t, exists rs,
    forM body xs t = (Ok rs, List.length xs + t) /\ Forall2 Q xs rs.
Proof.
  intros Hbody xs. induction xs as [| x xs IH]; intro t; simpl.
  - exists []. split; [reflexivity | constructor].
  - destruct (Hbody x t) as (r & Er & Hr).
    destruct (IH (S t)) as (rs & Ers & Hrs).
    exists (r :: rs). unfold bind. rewrite Er, Ers. unfold ret.
    split; [f_equal; lia | constructor; assumption].
Qed.


(** A status that [urlopen] reports by raising [HTTPError] is handled by
    the clause for [URLError]: the result is [fail]. *)
Example probe_endpoint_http_error :
  let w := {| BASE_DIR := root_of [];
              urlopen := fun _ _ => Raise (HTTPError 404 "Not Found");
              clock := sample_clock |} in
  exists r t',
    probe_endpoint w (auditor_of w) ("/status", "GET") 0 = (Ok r, t') /\
    status r = "fail" /\
    message r = "GET /status - Connection failed" /\
    details r = Some [("error", VStr "HTTP Error 404: Not Found")].
Proof. eexists. eexists. split; [reflexivity |]. simpl. auto. Qed.

Lemma filter_on_name (f : string -> bool) (rs : list AuditResult) :
  List.length (filter (fun r => f (name r)) rs)
  = List.length (filter f (map name rs)).
Proof.
  induction rs as [| r rs IH]; [reflexivity |].
  simpl. destruct (f (name r)); simpl; rewrite IH; reflexivity.
Qed.

Lemma filter_no_name (key : string) (rs : list AuditResult) :
  Forall (fun r => name r <> key) rs ->
  List.length (filter (fun r => String.eqb (name r) key) rs) = 0.
Proof.
  induction 1 as [| r rs Hr _ IH]; [reflexivity |].
  cbn [filter]. destruct (String.eqb_spec (name r) key);
    [contradiction | exact IH].
Qed.


(* ===================================================================== *)
(** ** C3 and C4: the data-integrity runner *)
(* ===================================================================== *)

(** C3. When the latest-news artifact exists and holds a JSON value that is
    not an object (an array, a string, a number, [true], [false] or
    [null]), the call [data.get] raises [AttributeError], which the handler
    for [JSONDecodeError] does not catch: [audit_data] raises and returns
    no result. *)
Theorem audit_data_raises_on_non_object
  (lib : PyLib) (w : World) (text : string) (data : value) (t : nat) :
  read_text utf8 (child (DATA_DIR w) "latest-dutch-news.json") = Ok text ->
  json_loads text = Ok data ->
  is_dict data = false ->
  audit_data w t
  = (Raise (AttributeError
              ("'" ++ type_name data ++ "' object has no attribute 'get'")),
     t).
Proof.
  intros Hread Hjson Hdict.
  unfold audit_data, check_latest_news.
  assert (Hex : path_exists (child (DATA_DIR w) "latest-dutch-news.json")
                = true).
  { unfold read_text, path_exists in *.
    destruct (target (child (DATA_DIR w) "latest-dutch-news.json"));
      [reflexivity | discriminate Hread]. }
  unfold bind at 1. rewrite Hex.
  unfold try_except, bind, lift, json_load. rewrite Hread, Hjson.
  destruct data; try discriminate Hdict; reflexivity.
Qed.

(** The sample world whose latest-news artifact holds [[]]: the file is
    there, it parses, and the runner raises. *)
Lemma audit_data_raises_on_non_object_witness :
  @audit_data sample_lib news_array_world 0
  = (Raise (AttributeError "'list' object has no attribute 'get'"), 0).
Proof.
  apply (@audit_data_raises_on_non_object sample_lib news_array_world
           "[]" (VList []) 0); reflexivity.
Defined.

(** The full run on that world raises as well: no report is produced. *)
Lemma run_full_audit_raises_on_news_array :
  exists t',
    @run_full_audit sample_lib news_array_world
      (auditor_of news_array_world) 0
    = (Raise (AttributeError "'list' object has no attribute 'get'"), t').
Proof. eexists. vm_compute. reflexivity. Qed.

Lemma check_latest_news_name (lib : PyLib) (w : World) :
  post (check_latest_news w) (fun r => name r = "data_latest_news").
Proof.
  unfold check_latest_news.
  post_steps (fun r => name r = "data_latest_news"); reflexivity.
Qed.

Lemma py_len_raises (v : value) (e : exn) :
  py_len v = Raise e -> is_JSONDecodeError e = false.
Proof.
  destruct v; intro H; try discriminate H; injection H as <-; reflexivity.
Qed.

(** What the check of the latest-news artifact returns when it does return:
    [warn] for a missing file, [fail] with the text of the parse error for
    invalid JSON, and [pass] for a JSON object, with the value under
    [totalArticles] (0 when the key is absent) in the details. *)
Lemma check_latest_news_returns
  (lib : PyLib) (w : World) (t : nat) (r : AuditResult) (t' : nat) :
  check_latest_news w t = (Ok r, t') ->
  let news_file := child (DATA_DIR w) "latest-dutch-news.json" in
  (path_exists news_file = false /\ status r = "warn") \/
  (path_exists news_file = true /\
   exists msg, json_load news_file = Raise (JSONDecodeError msg) /\
               status r = "fail" /\
               message r = "latest-dutch-news.json: Invalid JSON - " ++ msg)
  \/
  (path_exists news_file = true /\
   exists (d dt : dict),
     json_load news_file = Ok (VDict d) /\
     status r = "pass" /\
     details r = Some dt /\
     dict_get "total_articles" dt
     = Some (match dict_get "totalArticles" d with
             | Some v => v
             | None => VInt 0
             end)).
Proof.
  unfold check_latest_news. cbv zeta.
  destruct (path_exists (child (DATA_DIR w) "latest-dutch-news.json")).
  - unfold try_except, bind at 1, lift at 1.
    destruct (json_load (child (DATA_DIR w) "latest-dutch-news.json"))
      as [data | e].
    + destruct data; try (intro H; simpl in H; discriminate H).
      intro H. unfold bind, lift, py_get in H. simpl in H.
      destruct (py_len (match dict_get "categories" entries with
                        | Some v => v
                        | None => VList []
                        end)) as [categories | e1] eqn:E1; simpl in H;
        [| rewrite (py_len_raises _ _ E1) in H; discriminate H].
      destruct (py_len (match dict_get "sources" entries with
                        | Some v => v
                        | None => VList []
                        end)) as [sources | e2] eqn:E2; simpl in H;
        [| rewrite (py_len_raises _ _ E2) in H; discriminate H].
      injection H as <- _.
      right. right. split; [reflexivity |].
      eexists. eexists. split; [reflexivity |]. split; [reflexivity |].
      split; reflexivity.
    + destruct e; simpl; intro H; try discriminate H.
      injection H as <- _. right. left. split; [reflexivity |].
      exists msg. auto.
  - intro H. injection H as <- _. left. auto.
Qed.

(** What the check of the weekly artifact returns, by the state of the
    file. *)
Lemma check_weekly_articles_returns
  (lib : PyLib) (w : World) (t : nat) (r : AuditResult) (t' : nat) :
  check_weekly_articles w t = (Ok r, t') ->
  name r = "data_weekly_articles" /\
  let weekly_file := child (DATA_DIR w) "weekly-top-articles.json" in
  (path_exists weekly_file = false /\ status r = "warn") \/
  (path_exists weekly_file = true /\
   exists msg, json_load weekly_file = Raise (JSONDecodeError msg) /\
               status r = "fail") \/
  (path_exists weekly_file = true /\
   exists data, json_load weekly_file = Ok data /\
                status r = (if (3 <=? days_count_of data)%nat
                            then "pass" else "warn")).
Proof.
  unfold check_weekly_articles. cbv zeta.
  destruct (path_exists (child (DATA_DIR w) "weekly-top-articles.json"))
    eqn:Hex.
  - unfold try_except, bind, lift.
    destruct (json_load (child (DATA_DIR w) "weekly-top-articles.json"))
      as [data | e] eqn:Hload.
    + intro H. injection H as <- _. split; [reflexivity |].
      right. right. split; [reflexivity |]. exists data. auto.
    + destruct e; simpl; intro H; try discriminate H.
      injection H as <- _. split; [reflexivity |].
      right. left. split; [reflexivity |]. exists msg. auto.
  - intro H. injection H as <- _. split; [reflexivity |]. left. auto.
Qed.

(** C4. Whenever [audit_data] returns, its second result is the one of the
    weekly artifact, and its status is [pass] exactly when the file exists,
    parses as JSON and counts at least 3 days (the length of the parsed
    value when it is a list, otherwise 0); [warn] when the file is missing
    or the count is below 3; [fail] when the file is invalid JSON. A list
    of two entries gives [warn], a list of three gives [pass]. *)
Theorem audit_data_weekly_status
  (lib : PyLib) (w : World) (t : nat) (rs : list AuditResult) (t' : nat) :
  audit_data w t = (Ok rs, t') ->
  let weekly_file := child (DATA_DIR w) "weekly-top-articles.json" in
  exists news weekly backups,
    rs = [news; weekly; backups] /\
    name news = "data_latest_news" /\
    name weekly = "data_weekly_articles" /\
    name backups = "data_backups" /\
    (status weekly = "pass" <->
     path_exists weekly_file = true /\
     exists data, json_load weekly_file = Ok data /\
                  3 <= days_count_of data) /\
    (path_exists weekly_file = false -> status weekly = "warn") /\
    (forall data, path_exists weekly_file = true ->
                  json_load weekly_file = Ok data ->
                  days_count_of data < 3 -> status weekly = "warn") /\
    (forall msg, path_exists weekly_file = true ->
                 json_load weekly_file = Raise (JSONDecodeError msg) ->
                 status weekly = "fail") /\
    (forall a b, path_exists weekly_file = true ->
                 json_load weekly_file = Ok (VList [a; b]) ->
                 status weekly = "warn") /\
    (forall a b c, path_exists weekly_file = true ->
                   json_load weekly_file = Ok (VList [a; b; c]) ->
                   status weekly = "pass").
Proof.
  intros H weekly_file. unfold audit_data in H.
  apply bind_returns in H. destruct H as (news & t1 & Hnews & H).
  apply bind_returns in H. destruct H as (weekly & t2 & Hweekly & H).
  apply bind_returns in H. destruct H as (backups & t3 & Hbackups & H).
  injection H as <- _.
  exists news, weekly, backups. split; [reflexivity |].
  assert (Hn : name news = "data_latest_news").
  { exact (check_latest_news_name lib w _ _ _ Hnews). }
  assert (Hb : name backups = "data_backups")
    by (injection Hbackups as <- _; reflexivity).
  apply check_weekly_articles_returns in Hweekly.
  destruct Hweekly as [Hname Hcases]. cbv zeta in Hcases.
  subst weekly_file.
  set (weekly_file := child (DATA_DIR w) "weekly-top-articles.json") in *.
  repeat (split; [assumption |]).
  assert (Hstatus :
    forall data, json_load weekly_file = Ok data ->
                 path_exists weekly_file = true ->
                 status weekly = (if (3 <=? days_count_of data)%nat
                                  then "pass" else "warn")).
  { intros data Hd He.
    destruct Hcases as [[Hx _] | [(_ & msg & Hm & _) | (_ & d & Hd' & Hs)]].
    - congruence.
    - congruence.
    - rewrite Hd in Hd'. injection Hd' as <-. exact Hs. }
  split; [| split; [| split; [| split; [| split]]]].
  - split.
    + intro Hpass.
      destruct Hcases as [[_ Hs] | [(_ & msg & _ & Hs) | (Hx & d & Hd & Hs)]];
        try congruence.
      split; [exact Hx |]. exists d. split; [exact Hd |].
      destruct (Nat.leb_spec 3 (days_count_of d)); [assumption | congruence].
    + intros (Hx & d & Hd & Hge). rewrite (Hstatus d Hd Hx).
      destruct (Nat.leb_spec 3 (days_count_of d)); [reflexivity | lia].
  - intro Hx.
    destruct Hcases as [[_ Hs] | [(Hx' & _) | (Hx' & _)]]; congruence.
  - intros d Hx Hd Hlt. rewrite (Hstatus d Hd Hx).
    destruct (Nat.leb_spec 3 (days_count_of d)); [lia | reflexivity].
  - intros msg Hx Hm.
    destruct Hcases as [[Hx' _] | [(_ & m & _ & Hs) | (_ & d & Hd & _)]];
      congruence.
  - intros a b Hx Hd. rewrite (Hstatus _ Hd Hx). reflexivity.
  - intros a b c Hx Hd. rewrite (Hstatus _ Hd Hx). reflexivity.
Qed.

(** On the world whose weekly artifact holds two days, [audit_data] returns
    and the weekly result is [warn]. *)
Lemma audit_data_weekly_status_witness :
  exists rs t',
    @audit_data sample_lib two_days_world 0 = (Ok rs, t') /\
    exists news weekly backups,
      rs = [news; weekly; backups] /\ status weekly = "warn".
Proof.
  assert (E : @audit_data sample_lib two_days_world 0 = two_days_run)
    by (vm_compute; reflexivity).
  unfold two_days_run in E.
  eexists. eexists. split; [exact E |].
  destruct (audit_data_weekly_status _ _ _ _ _ E)
    as (news & weekly & backups & Hrs & _ & _ & _ & _ & _ & _ & _ & Htwo & _).
  exists news, weekly, backups. split; [exact Hrs |].
  apply (Htwo (VInt 1) (VInt 2)); reflexivity.
Defined.

(* ===================================================================== *)
(** ** C5 and C6: the content-quality runner *)
(* ===================================================================== *)

(** The per-type count never raises and names its result after the type. *)
Lemma count_content_type_returns (w : World) (content_type : string)
  (t : nat) :
  exists r,
    count_content_type w content_type t = (Ok r, S t) /\
    (name r = "content_" ++ content_type /\
     status r = (if nonempty (glob (CONTENT_DIR w)
                                ("*-" ++ content_type ++ ".md"))
                 then "pass" else "info")).
Proof. eexists. split; [reflexivity |]. simpl. auto. Qed.

(** The four results of the loop over [CONTENT_TYPES]. *)
Lemma by_type_results (w : World) (t : nat) (by_type : list AuditResult)
  (t' : nat) :
  forM (count_content_type w) CONTENT_TYPES t = (Ok by_type, t') ->
  t' = 4 + t /\
  exists r1 r2 r3 r4,
    by_type = [r1; r2; r3; r4] /\
    map name by_type = ["content_weeklyRoundup"; "content_insightPost";
                        "content_trendAnalysis"; "content_longFormArticle"] /\
    Forall2 (fun content_type r =>
               status r = (if nonempty (glob (CONTENT_DIR w)
                                          ("*-" ++ content_type ++ ".md"))
                           then "pass" else "info"))
      CONTENT_TYPES by_type.
Proof.
  intro H.
  destruct (forM_returns _ _ (count_content_type_returns w) CONTENT_TYPES t)
    as (rs & E & Hrs).
  rewrite E in H. injection H as <- <-. split; [reflexivity |].
  unfold CONTENT_TYPES in Hrs.
  inversion Hrs as [| ? r1 ? l1 [N1 S1] H1]; subst.
  inversion H1 as [| ? r2 ? l2 [N2 S2] H2]; subst.
  inversion H2 as [| ? r3 ? l3 [N3 S3] H3]; subst.
  inversion H3 as [| ? r4 ? l4 [N4 S4] H4]; subst.
  inversion H4; subst.
  exists r1, r2, r3, r4. split; [reflexivity |]. split.
  - simpl. rewrite N1, N2, N3, N4. reflexivity.
  - unfold CONTENT_TYPES. repeat constructor; assumption.
Qed.

(** C5, as the code has it. When the content directory is absent the runner
    returns the single result [content_dir] with status [warn]. When it
    exists and has no entry the runner does not stop there: it returns the
    four per-type counts and the metadata count, all [info], and only the
    evaluation of the latest file is left out. *)
Theorem audit_linkedin_content_absent_or_empty (w : World) (t : nat) :
  (path_exists (CONTENT_DIR w) = false ->
   exists r,
     audit_linkedin_content w t = (Ok [r], 1 + t) /\
     name r = "content_dir" /\ status r = "warn") /\
  (path_exists (CONTENT_DIR w) = true ->
   iterdir (CONTENT_DIR w) = [] ->
   exists rs,
     audit_linkedin_content w t = (Ok rs, 5 + t) /\
     map name rs = ["content_weeklyRoundup"; "content_insightPost";
                    "content_trendAnalysis"; "content_longFormArticle";
                    "content_metadata"] /\
     Forall (fun r => status r = "info") rs).
Proof.
  unfold audit_linkedin_content. split.
  - intros ->. simpl. eexists. split; [reflexivity |]. simpl. auto.
  - intros -> Hempty. simpl negb. cbv iota.
    assert (Hglob : forall pattern, glob (CONTENT_DIR w) pattern = []).
    { intro pattern. unfold glob. rewrite Hempty. reflexivity. }
    eexists. split.
    + unfold CONTENT_TYPES, forM, bind, ret, count_content_type,
        new_AuditResult, analyze_latest_content. rewrite !Hglob. reflexivity.
    + simpl. split; [reflexivity |]. repeat constructor.
Qed.

(** Both cases are met: the empty project has no content directory, and the
    sample below has one without entries. *)
Lemma audit_linkedin_content_absent_or_empty_witness :
  (exists r,
     audit_linkedin_content empty_world 0 = (Ok [r], 1) /\
     status r = "warn") /\
  (exists rs,
     audit_linkedin_content empty_content_world 0 = (Ok rs, 5) /\
     Forall (fun r => status r = "info") rs).
Proof.
  split.
  - destruct (proj1 (audit_linkedin_content_absent_or_empty empty_world 0)
                eq_refl) as (r & E & _ & Hs).
    exists r. split; [exact E | exact Hs].
  - destruct (proj2 (audit_linkedin_content_absent_or_empty
                       empty_content_world 0) eq_refl eq_refl)
      as (rs & E & _ & Hs).
    exists rs. split; [exact E | exact Hs].
Defined.

(** C5, as stated, fails: the content directory of this world exists and is
    empty, and the runner returns five results, not one. *)
Lemma audit_linkedin_content_empty_dir_five_results :
  path_exists (CONTENT_DIR empty_content_world) = true /\
  iterdir (CONTENT_DIR empty_content_world) = [] /\
  (exists rs t',
     audit_linkedin_content empty_content_world 0 = (Ok rs, t') /\
     List.length rs = 5) /\
  ~ (exists r t',
       audit_linkedin_content empty_content_world 0 = (Ok [r], t')).
Proof.
  split; [reflexivity |]. split; [reflexivity |]. split.
  - eexists. eexists. split; [vm_compute; reflexivity | reflexivity].
  - intros (r & t' & H). vm_compute in H. discriminate H.
Qed.

(** [max_by] returns an item of the list whose key no item exceeds. *)
Lemma max_by_greatest {A : Type} (key : A -> Z) (xs : list A) (x : A) :
  In (max_by key x xs) (x :: xs) /\
  Forall (fun y => (key y <= key (max_by key x xs))%Z) (x :: xs).
Proof.
  unfold max_by. revert x.
  induction xs as [| y ys IH]; intro x.
  - simpl. split; [left; reflexivity |]. repeat constructor. lia.
  - cbn [fold_left].
    destruct (Z.ltb_spec (key x) (key y)) as [Hlt | Hge].
    + destruct (IH y) as [Hin Hall]. split.
      * right. exact Hin.
      * inversion Hall as [| ? ? Hy Hys]; subst.
        constructor; [lia |]. constructor; assumption.
    + destruct (IH x) as [Hin Hall]. split.
      * destruct Hin as [<- | Hin];
          [left; reflexivity | right; right; exact Hin].
      * inversion Hall as [| ? ? Hx Hys]; subst.
        constructor; [exact Hx |]. constructor; [lia | exact Hys].
Qed.

(** C6. When the content directory holds at least one markdown file and the
    runner returns, its fifth result is the only one named
    [content_quality]; it evaluates a markdown file whose modification time
    no other markdown file exceeds, and its status is [pass] exactly when
    the text counts more than 100 words, contains [#] and contains one of
    the three keywords once lowered; otherwise it is [warn]. A text of
    fewer than 100 words gives [warn] whatever it contains. *)
Theorem audit_linkedin_content_quality
  (w : World) (t : nat) (rs : list AuditResult) (t' : nat)
  (f : Path) (fs : list Path) :
  path_exists (CONTENT_DIR w) = true ->
  glob (CONTENT_DIR w) "*.md" = f :: fs ->
  audit_linkedin_content w t = (Ok rs, t') ->
  exists (latest : Path) (content : string) (quality : AuditResult),
    In latest (f :: fs) /\
    Forall (fun g => (stat_mtime g <= stat_mtime latest)%Z) (f :: fs) /\
    read_text utf8 latest = Ok content /\
    nth_error rs 4 = Some quality /\
    name quality = "content_quality" /\
    List.length
      (filter (fun r => String.eqb (name r) "content_quality") rs) = 1 /\
    (status quality = "pass" <->
     100 < List.length (split content) /\
     str_in "#" content = true /\
     exists word,
       In word ["recruitment"; "nederlandse"; "arbeidsmarkt"] /\
       str_in word (lower content) = true) /\
    (status quality = "warn" <-> status quality <> "pass") /\
    (List.length (split content) < 100 -> status quality = "warn").
Proof.
  intros Hex Hglob H. unfold audit_linkedin_content in H.
  rewrite Hex in H. simpl negb in H. cbv iota in H.
  apply bind_returns in H. destruct H as (by_type & t1 & Hby & H).
  apply bind_returns in H. destruct H as (qs & t2 & Hq & H).
  apply bind_returns in H. destruct H as (metadata & t3 & Hm & H).
  injection H as <- _.
  apply by_type_results in Hby.
  destruct Hby as (_ & r1 & r2 & r3 & r4 & -> & Hnames & _).
  rewrite Hglob in Hq. unfold analyze_latest_content in Hq.
  apply bind_returns in Hq. destruct Hq as (content & t4 & Hread & Hq).
  apply bind_returns in Hq. destruct Hq as (quality & t5 & Hquality & Hq).
  injection Hq as <- _.
  injection Hread as Hread _.
  injection Hquality as <- _.
  injection Hm as <- _.
  destruct (max_by_greatest stat_mtime fs f) as [Hin Hall].
  exists (max_by stat_mtime f fs), content.
  eexists. split; [exact Hin |]. split; [exact Hall |].
  split; [exact Hread |]. split; [reflexivity |]. split; [reflexivity |].
  split.
  { rewrite (filter_on_name (fun n => String.eqb n "content_quality")).
    rewrite map_app. rewrite Hnames. reflexivity. }
  cbn [status].
  unfold word_count_of, has_hashtags_of, has_dutch_of.
  set (many := (100 <? List.length (split content))%nat).
  set (hashtags := str_in "#" content).
  set (dutch := existsb _ _).
  assert (Hmany : many = true <-> 100 < List.length (split content))
    by apply Nat.ltb_lt.
  assert (Hdutch : dutch = true <->
                   exists word,
                     In word ["recruitment"; "nederlandse"; "arbeidsmarkt"] /\
                     str_in word (lower content) = true)
    by apply existsb_exists.
  split; [| split].
  - rewrite <- Hmany, <- Hdutch.
    destruct many, hashtags, dutch; simpl; split;
      try discriminate; try tauto;
      intros (? & ? & ?); discriminate.
  - destruct (many && hashtags && dutch); split; intro; congruence.
  - intro Hfew.
    assert (many = false) as -> by (apply Nat.ltb_ge; lia).
    reflexivity.
Qed.

(** The full project has two markdown files; the runner returns on it and
    the latest one, a post of two words, is rated [warn]. *)
Lemma audit_linkedin_content_quality_witness :
  exists rs t' quality,
    audit_linkedin_content full_world 0 = (Ok rs, t') /\
    nth_error rs 4 = Some quality /\
    name quality = "content_quality" /\
    status quality = "warn".
Proof.
  assert (E : audit_linkedin_content full_world 0 = full_content_run)
    by (vm_compute; reflexivity).
  unfold full_content_run in E.
  destruct (audit_linkedin_content_quality full_world 0 _ _ _ _
              eq_refl eq_refl E)
    as (latest & content & quality & _ & _ & Hread & Hnth & Hname & _ & _
        & _ & Hfew).
  eexists. eexists. exists quality.
  split; [exact E |]. split; [exact Hnth |]. split; [exact Hname |].
  injection Hnth as <-. reflexivity.
Defined.

(* ===================================================================== *)
(** ** C7 and C10: the security runner *)
(* ===================================================================== *)

Section Security.

Context {lib : PyLib}.
Variable w : World.
Variable self : LinkedInAutomationAuditor.

Let env_file : Path := child (base_dir self) ".env".
Let gitignore_file : Path := child (base_dir self) ".gitignore".
Let server_file : Path := child (base_dir self) "zapier-webhook-server.cjs".

Lemma check_code_scan_returns (t : nat) :
  exists scan,
    check_code_scan w self t = (Ok scan, S t) /\
    name scan = "security_code_scan" /\
    (status scan = "pass" \/ status scan = "warn").
Proof.
  unfold check_code_scan. cbv zeta.
  destruct (nonempty _); eexists; (split; [reflexivity |]); simpl; auto.
Qed.

Lemma check_env_file_returns (t : nat) (env : list AuditResult) (t' : nat) :
  check_env_file w self t = (Ok env, t') ->
  (path_exists env_file = false /\
   exists r, env = [r] /\ name r = "security_env_file" /\
             status r = "warn") \/
  (path_exists env_file = true /\
   exists env_content r1 r2,
     read_text locale env_file = Ok env_content /\
     env = [r1; r2] /\
     name r1 = "security_env_file" /\ status r1 = "pass" /\
     name r2 = "security_webhook_secret" /\
     status r2 = (if str_in "WEBHOOK_SECRET" env_content
                  then "pass" else "warn")).
Proof.
  unfold check_env_file. cbv zeta. fold env_file.
  destruct (path_exists env_file).
  - intro H. right. split; [reflexivity |].
    apply bind_returns in H. destruct H as (r1 & t1 & H1 & H).
    apply bind_returns in H. destruct H as (env_content & t2 & Hread & H).
    apply bind_returns in H. destruct H as (r2 & t3 & H2 & H).
    injection H as <- _. injection H1 as <- _. injection H2 as <- _.
    injection Hread as Hread _.
    exists env_content. eexists. eexists.
    split; [exact Hread |]. split; [reflexivity |]. simpl. auto.
  - intro H. left. split; [reflexivity |].
    injection H as <- _. eexists. split; [reflexivity |]. simpl. auto.
Qed.

Lemma check_gitignore_returns (t : nat) (gitignore : list AuditResult)
  (t' : nat) :
  check_gitignore w self t = (Ok gitignore, t') ->
  (path_exists gitignore_file = false /\ gitignore = []) \/
  (path_exists gitignore_file = true /\
   exists gitignore_content r,
     read_text locale gitignore_file = Ok gitignore_content /\
     gitignore = [r] /\
     name r = "security_gitignore" /\
     status r = (if str_in ".env" gitignore_content
                 then "pass" else "fail")).
Proof.
  unfold check_gitignore. cbv zeta. fold gitignore_file.
  destruct (path_exists gitignore_file).
  - intro H. right. split; [reflexivity |].
    apply bind_returns in H. destruct H as (content & t1 & Hread & H).
    apply bind_returns in H. destruct H as (r & t2 & Hr & H).
    injection H as <- _. injection Hr as <- _. injection Hread as Hread _.
    exists content. eexists.
    split; [exact Hread |]. split; [reflexivity |]. simpl. auto.
  - intro H. left. injection H as <- _. auto.
Qed.

Lemma check_cors_returns (t : nat) (cors : list AuditResult) (t' : nat) :
  check_cors w self t = (Ok cors, t') ->
  (path_exists server_file = false /\ cors = []) \/
  (path_exists server_file = true /\
   exists server_content r,
     read_text locale server_file = Ok server_content /\
     cors = [r] /\
     name r = "security_cors" /\
     status r = (if str_in "Access-Control-Allow-Origin', '*'" server_content
                 then "warn" else "pass")).
Proof.
  unfold check_cors. cbv zeta. fold server_file.
  destruct (path_exists server_file).
  - intro H. right. split; [reflexivity |].
    apply bind_returns in H. destruct H as (content & t1 & Hread & H).
    apply bind_returns in H. destruct H as (r & t2 & Hr & H).
    injection H as <- _. injection Hr as <- _. injection Hread as Hread _.
    exists content. eexists.
    split; [exact Hread |]. split; [reflexivity |]. simpl. auto.
  - intro H. left. injection H as <- _. auto.
Qed.

(** The results of the security runner, block by block. *)
Lemma audit_security_returns (t : nat) (rs : list AuditResult) (t' : nat) :
  audit_security w self t = (Ok rs, t') ->
  exists scan env gitignore cors t1 t2 t3,
    rs = (scan :: env ++ gitignore ++ cors)%list /\
    name scan = "security_code_scan" /\
    (status scan = "pass" \/ status scan = "warn") /\
    check_env_file w self (S t) = (Ok env, t1) /\
    check_gitignore w self t1 = (Ok gitignore, t2) /\
    check_cors w self t2 = (Ok cors, t3).
Proof.
  intro H. unfold audit_security in H.
  apply bind_returns in H. destruct H as (scan & t0 & Hscan & H).
  apply bind_returns in H. destruct H as (env & t1 & Henv & H).
  apply bind_returns in H. destruct H as (gitignore & t2 & Hgit & H).
  apply bind_returns in H. destruct H as (cors & t3 & Hcors & H).
  injection H as <- _.
  destruct (check_code_scan_returns t) as (scan' & E & Hname & Hstatus).
  rewrite E in Hscan. injection Hscan as <- <-.
  exists scan', env, gitignore, cors, t1, t2, t3. auto 10.
Qed.

End Security.

(** C7. Whenever the security runner returns, every result is [pass] or
    [warn], except that the result named [security_gitignore] may be
    [fail]. When the ignore file exists, that result is present exactly
    once, and it is [pass] when the text of the file contains [.env] and
    [fail] when it does not. *)
Theorem audit_security_only_gitignore_fails
  (lib : PyLib) (w : World) (self : LinkedInAutomationAuditor)
  (t : nat) (rs : list AuditResult) (t' : nat) :
  audit_security w self t = (Ok rs, t') ->
  Forall (fun r => status r = "pass" \/ status r = "warn" \/
                   (status r = "fail" /\ name r = "security_gitignore")) rs /\
  Forall (fun r => status r = "fail" -> name r = "security_gitignore") rs /\
  (path_exists (child (base_dir self) ".gitignore") = true ->
   exists gitignore_content r,
     read_text locale (child (base_dir self) ".gitignore")
     = Ok gitignore_content /\
     In r rs /\
     name r = "security_gitignore" /\
     status r = (if str_in ".env" gitignore_content
                 then "pass" else "fail") /\
     List.length
       (filter (fun r => String.eqb (name r) "security_gitignore") rs) = 1).
Proof.
  intro H.
  destruct (audit_security_returns w self t rs t' H)
    as (scan & env & gitignore & cors & t1 & t2 & t3 & -> & Hscan & Sscan
        & Henv & Hgit & Hcors).
  apply check_env_file_returns in Henv.
  apply check_gitignore_returns in Hgit.
  apply check_cors_returns in Hcors.
  assert (Hall :
    Forall (fun r => status r = "pass" \/ status r = "warn" \/
                     (status r = "fail" /\ name r = "security_gitignore"))
      (scan :: env ++ gitignore ++ cors)).
  { constructor; [tauto |].
    apply Forall_app. split; [| apply Forall_app; split].
    - destruct Henv as [(_ & r & -> & _ & Hs)
                       | (_ & c & r1 & r2 & _ & -> & _ & Hs1 & _ & Hs2)].
      + list_facts. tauto.
      + list_facts; [tauto |]. rewrite Hs2.
        destruct (str_in _ c); tauto.
    - destruct Hgit as [(_ & ->) | (_ & c & r & _ & -> & Hn & Hs)].
      + constructor.
      + list_facts. rewrite Hs. destruct (str_in _ c); tauto.
    - destruct Hcors as [(_ & ->) | (_ & c & r & _ & -> & _ & Hs)].
      + constructor.
      + list_facts. rewrite Hs. destruct (str_in _ c); tauto. }
  split; [exact Hall |]. split.
  - eapply Forall_impl; [| exact Hall]. simpl.
    intros r [Hp | [Hw | [_ Hn]]] Hf; [congruence | congruence | exact Hn].
  - intro Hex.
    destruct Hgit as [(Hno & _) | (_ & c & r & Hread & -> & Hn & Hs)];
      [congruence |].
    exists c, r. split; [exact Hread |]. split.
    { right. apply in_or_app. right. left. reflexivity. }
    split; [exact Hn |]. split; [exact Hs |].
    rewrite (filter_on_name (fun n => String.eqb n "security_gitignore")).
    cbn [map]. rewrite !map_app. cbn [map]. rewrite Hscan, Hn.
    destruct Henv as [(_ & r0 & -> & Hn0 & _)
                     | (_ & c0 & r1 & r2 & _ & -> & Hn1 & _ & Hn2 & _)];
      destruct Hcors as [(_ & ->) | (_ & c' & r' & _ & -> & Hn' & _)];
      cbn [map app]; rewrite ?Hn0, ?Hn1, ?Hn2, ?Hn'; reflexivity.
Qed.

(** On the full project the runner returns; the ignore file is there and
    does not mention [.env], and the result is [fail]. *)
Lemma audit_security_only_gitignore_fails_witness :
  exists rs t' r,
    @audit_security sample_lib full_world (auditor_of full_world) 0
    = (Ok rs, t') /\
    In r rs /\ name r = "security_gitignore" /\ status r = "fail".
Proof.
  assert (E : @audit_security sample_lib full_world (auditor_of full_world) 0
              = full_security_run) by (vm_compute; reflexivity).
  unfold full_security_run in E.
  destruct (audit_security_only_gitignore_fails _ _ _ _ _ _ E)
    as (_ & _ & Hgit).
  destruct (Hgit eq_refl) as (c & r & Hread & Hin & Hname & Hstatus & _).
  eexists. eexists. exists r.
  split; [exact E |]. split; [exact Hin |]. split; [exact Hname |].
  injection Hread as <-. exact Hstatus.
Defined.

(** C10. Whenever the security runner returns, the number of its results
    is one for the code scan, two or one for the secrets file as it exists
    or not, and one for each of the ignore file and the server source that
    exists; when the ignore file is absent no result is named
    [security_gitignore]. *)
Theorem audit_security_without_gitignore
  (lib : PyLib) (w : World) (self : LinkedInAutomationAuditor)
  (t : nat) (rs : list AuditResult) (t' : nat) :
  audit_security w self t = (Ok rs, t') ->
  List.length rs
  = 1 + (if path_exists (child (base_dir self) ".env") then 2 else 1)
      + (if path_exists (child (base_dir self) ".gitignore") then 1 else 0)
      + (if path_exists (child (base_dir self) "zapier-webhook-server.cjs")
         then 1 else 0) /\
  (path_exists (child (base_dir self) ".gitignore") = false ->
   Forall (fun r => name r <> "security_gitignore") rs /\
   List.length
     (filter (fun r => String.eqb (name r) "security_gitignore") rs) = 0).
Proof.
  intro H.
  destruct (audit_security_returns w self t rs t' H)
    as (scan & env & gitignore & cors & t1 & t2 & t3 & -> & Hscan & Sscan
        & Henv & Hgit & Hcors).
  apply check_env_file_returns in Henv.
  apply check_gitignore_returns in Hgit.
  apply check_cors_returns in Hcors.
  split.
  - cbn [List.length]. rewrite !length_app.
    destruct Henv as [(-> & r0 & -> & _)
                     | (-> & c0 & r1 & r2 & _ & -> & _)];
      destruct Hgit as [(-> & ->) | (-> & c & r & _ & -> & _)];
      destruct Hcors as [(-> & ->) | (-> & c' & r' & _ & -> & _)];
      reflexivity.
  - intro Hno.
    destruct Hgit as [(_ & ->) | (Hyes & _)]; [| congruence].
    assert (Hnames :
      Forall (fun r => name r <> "security_gitignore")
        (scan :: env ++ [] ++ cors)).
    { constructor; [rewrite Hscan; discriminate |].
      apply Forall_app. split; [| apply Forall_app; split].
      - destruct Henv as [(_ & r0 & -> & Hn0 & _)
                         | (_ & c0 & r1 & r2 & _ & -> & Hn1 & _ & Hn2 & _)];
          list_facts; rewrite ?Hn0, ?Hn1, ?Hn2; discriminate.
      - constructor.
      - destruct Hcors as [(_ & ->) | (_ & c' & r' & _ & -> & Hn' & _)];
          list_facts; rewrite ?Hn'; discriminate. }
    split; [exact Hnames |]. apply filter_no_name. exact Hnames.
Qed.

(** The empty project has no ignore file: the runner returns two results,
    none of them for the ignore file, where the full project gets five. *)
Lemma audit_security_without_gitignore_witness :
  (exists rs t',
     @audit_security sample_lib empty_world (auditor_of empty_world) 0
     = (Ok rs, t') /\
     List.length rs = 2 /\
     Forall (fun r => name r <> "security_gitignore") rs) /\
  (exists rs t',
     @audit_security sample_lib full_world (auditor_of full_world) 0
     = (Ok rs, t') /\
     List.length rs = 5).
Proof.
  split.
  - assert (E : exists rs t',
               @audit_security sample_lib empty_world
                 (auditor_of empty_world) 0 = (Ok rs, t'))
      by (eexists; eexists; vm_compute; reflexivity).
    destruct E as (rs & t' & E).
    destruct (audit_security_without_gitignore _ _ _ _ _ _ E) as [Hlen Hno].
    exists rs, t'. split; [exact E |]. split; [exact Hlen |].
    exact (proj1 (Hno eq_refl)).
  - assert (E : @audit_security sample_lib full_world
                  (auditor_of full_world) 0 = full_security_run)
      by (vm_compute; reflexivity).
    unfold full_security_run in E.
    eexists. eexists. split; [exact E |].
    exact (proj1 (audit_security_without_gitignore _ _ _ _ _ _ E)).
Defined.

(* ===================================================================== *)
(** ** Further properties: the file and directory runner *)
(* ===================================================================== *)





(* ===================================================================== *)
(** ** Further properties: paths and patterns *)
(* ===================================================================== *)

Lemma lookup_In (name : string) (entries : list (string * node)) (x : node) :
  lookup name entries = Some x -> In (name, x) entries.
Proof.
  induction entries as [| [n y] entries IH]; simpl; [discriminate |].
  destruct (String.eqb_spec n name) as [-> | _].
  - intro H. injection H as ->. left. reflexivity.
  - intro H. right. exact (IH H).
Qed.

(** A child that exists is one of the entries listed for its parent. *)
Lemma child_in_iterdir (p : Path) (name : string) :
  path_exists (child p name) = true -> In (child p name) (iterdir p).
Proof.
  unfold path_exists, child, iterdir. simpl.
  destruct (lookup name (entries_of p)) as [x |] eqn:E; [| discriminate].
  intros _. apply lookup_In in E.
  apply in_map_iff. exists (name, x). split; [reflexivity | exact E].
Qed.

Lemma child_in_glob (p : Path) (name pattern : string) :
  path_exists (child p name) = true ->
  fnmatch pattern name = true ->
  In (child p name) (glob p pattern).
Proof.
  intros Hex Hmatch. unfold glob. apply filter_In.
  split; [apply child_in_iterdir; exact Hex | exact Hmatch].
Qed.

(* ===================================================================== *)
(** ** Further properties: the code-quality runner *)
(* ===================================================================== *)

Lemma count_try_catch_readable (js_files : list Path) (acc : nat) :
  Forall (readable utf8) js_files ->
  count_try_catch js_files acc
  = Ok (acc + List.length (filter has_try_block js_files)).
Proof.
  intro H. revert acc.
  induction H as [| f fs [content Hf] _ IH]; intro acc; simpl.
  - apply f_equal. lia.
  - rewrite Hf, IH.
    assert (Hb : has_try_block f = str_in "try {" content)
      by (unfold has_try_block; rewrite Hf; reflexivity).
    rewrite Hb.
    destruct (str_in "try {" content); simpl; apply f_equal; lia.
Qed.

Lemma count_try_catch_returns (js_files : list Path) (acc n : nat) :
  count_try_catch js_files acc = Ok n -> Forall (readable utf8) js_files.
Proof.
  revert acc. induction js_files as [| f fs IH]; intros acc H.
  - constructor.
  - simpl in H. destruct (read_text utf8 f) as [content |] eqn:Hf;
      [| discriminate H].
    constructor; [exists content; exact Hf | exact (IH _ H)].
Qed.

Section CodeQuality.

Variable w : World.
Variable self : LinkedInAutomationAuditor.

Let creator_file : Path := child (base_dir self) "linkedin-content-creator.cjs".
Let server_file : Path := child (base_dir self) "zapier-webhook-server.cjs".
Let js_files : list Path := glob (base_dir self) "*.cjs".

Lemma check_creator_returns (t : nat) (rs : list AuditResult) (t' : nat) :
  check_creator w self t = (Ok rs, t') ->
  (path_exists creator_file = false /\ rs = [] /\ t' = t) \/
  (path_exists creator_file = true /\
   exists content methods tpl,
     read_text utf8 creator_file = Ok content /\
     rs = [methods; tpl] /\ t' = 2 + t /\
     name methods = "code_linkedin_methods" /\
     status methods
     = (if negb (nonempty (filter (fun m => negb (str_in m content))
                             required_methods))
        then "pass" else "warn") /\
     details methods
     = Some [("found",
              VList (map VStr (filter (fun m => str_in m content)
                                 required_methods)));
             ("missing",
              VList (map VStr (filter (fun m => negb (str_in m content))
                                 required_methods)))] /\
     name tpl = "code_templates" /\
     status tpl
     = (if (List.length (filter (fun x => str_in x content) templates)
            =? List.length templates)%nat
        then "pass" else "warn")).
Proof.
  unfold check_creator. cbv zeta. fold creator_file.
  destruct (path_exists creator_file).
  - intro H. right. split; [reflexivity |].
    apply bind_returns in H. destruct H as (content & t1 & Hread & H).
    injection Hread as Hread <-.
    apply bind_returns in H. destruct H as (methods & t2 & Hm & H).
    injection Hm as <- <-.
    apply bind_returns in H. destruct H as (tpl & t3 & Ht & H).
    injection Ht as <- <-. injection H as <- <-.
    exists content. eexists. eexists.
    split; [exact Hread |]. split; [reflexivity |]. simpl. auto 10.
  - intro H. left. injection H as <- <-. auto.
Qed.

Lemma check_server_endpoints_returns (t : nat) (rs : list AuditResult)
  (t' : nat) :
  check_server_endpoints w self t = (Ok rs, t') ->
  (path_exists server_file = false /\ rs = [] /\ t' = t) \/
  (path_exists server_file = true /\
   exists content r,
     read_text utf8 server_file = Ok content /\
     rs = [r] /\ t' = 1 + t /\
     name r = "code_endpoints" /\
     status r
     = (if (List.length (filter (fun e => str_in e content)
                           endpoints_in_code)
            =? List.length endpoints_in_code)%nat
        then "pass" else "warn")).
Proof.
  unfold check_server_endpoints. cbv zeta. fold server_file.
  destruct (path_exists server_file).
  - intro H. right. split; [reflexivity |].
    apply bind_returns in H. destruct H as (content & t1 & Hread & H).
    injection Hread as Hread <-.
    apply bind_returns in H. destruct H as (r & t2 & Hr & H).
    injection Hr as <- <-. injection H as <- <-.
    exists content. eexists.
    split; [exact Hread |]. split; [reflexivity |]. simpl. auto.
  - intro H. left. injection H as <- <-. auto.
Qed.

Lemma check_error_handling_returns (t : nat) (r : AuditResult) (t' : nat) :
  check_error_handling w self t = (Ok r, t') ->
  Forall (readable utf8) js_files /\
  t' = 1 + t /\
  name r = "code_error_handling" /\
  status r = (if (3 <? List.length (filter has_try_block js_files))%nat
              then "pass" else "warn") /\
  details r
  = Some [("files_with_handling",
           VInt (Z.of_nat (List.length (filter has_try_block js_files))));
          ("total_files", VInt (Z.of_nat (List.length js_files)))].
Proof.
  unfold check_error_handling. cbv zeta. fold js_files. intro H.
  apply bind_returns in H. destruct H as (n & t1 & Hcount & H).
  injection Hcount as Hcount <-.
  pose proof (count_try_catch_returns _ _ _ Hcount) as Hall.
  rewrite (count_try_catch_readable _ 0 Hall) in Hcount.
  injection Hcount as <-. injection H as <- <-. simpl. auto.
Qed.

(** The results of the code-quality runner, block by block. *)
Lemma audit_code_quality_returns (t : nat) (rs : list AuditResult)
  (t' : nat) :
  audit_code_quality w self t = (Ok rs, t') ->
  exists creator server handling t1 t2,
    rs = (creator ++ server ++ [handling])%list /\
    check_creator w self t = (Ok creator, t1) /\
    check_server_endpoints w self t1 = (Ok server, t2) /\
    check_error_handling w self t2 = (Ok handling, t').
Proof.
  intro H. unfold audit_code_quality in H.
  apply bind_returns in H. destruct H as (creator & t1 & Hc & H).
  apply bind_returns in H. destruct H as (server & t2 & Hs & H).
  apply bind_returns in H. destruct H as (handling & t3 & Hh & H).
  injection H as <- <-.
  exists creator, server, handling, t1, t2. auto.
Qed.

End CodeQuality.

(** X2. Whenever the code-quality runner returns, its results are, in
    order, [code_linkedin_methods] and [code_templates] if the content
    creator source exists, [code_endpoints] if the server source exists, and
    [code_error_handling]; each of them is [pass] or [warn], never [fail]
    or [info]. *)
Theorem audit_code_quality_results
  (w : World) (self : LinkedInAutomationAuditor)
  (t : nat) (rs : list AuditResult) (t' : nat) :
  audit_code_quality w self t = (Ok rs, t') ->
  map name rs
  = ((if path_exists (child (base_dir self) "linkedin-content-creator.cjs")
      then ["code_linkedin_methods"; "code_templates"] else []) ++
     (if path_exists (child (base_dir self) "zapier-webhook-server.cjs")
      then ["code_endpoints"] else []) ++
     ["code_error_handling"])%list /\
  Forall (fun r => status r = "pass" \/ status r = "warn") rs.
Proof.
  intro H.
  destruct (audit_code_quality_returns w self t rs t' H)
    as (creator & server & handling & t1 & t2 & -> & Hc & Hs & Hh).
  apply check_creator_returns in Hc.
  apply check_server_endpoints_returns in Hs.
  apply check_error_handling_returns in Hh.
  destruct Hh as (_ & _ & Nh & Sh & _).
  destruct Hc as [(-> & -> & _)
                 | (-> & c & m & tp & _ & -> & _ & Nm & Sm & _ & Nt & St)];
    destruct Hs as [(-> & -> & _) | (-> & c' & e & _ & -> & _ & Ne & Se)];
    (split;
     [ cbn [map app]; rewrite ?Nm, ?Nt, ?Ne, ?Nh; reflexivity
     | cbn [app]; repeat (apply Forall_cons || apply Forall_nil);
       rewrite ?Sm, ?St, ?Se, ?Sh;
       repeat match goal with
              | |- context [if ?b then _ else _] => destruct b
              end; tauto ]).
Qed.

(** On the full project the runner returns its four results. *)
Lemma audit_code_quality_results_witness :
  exists rs t',
    audit_code_quality full_world (auditor_of full_world) 0 = (Ok rs, t') /\
    map name rs = ["code_linkedin_methods"; "code_templates";
                   "code_endpoints"; "code_error_handling"].
Proof.
  assert (E : exists rs t',
             audit_code_quality full_world (auditor_of full_world) 0
             = (Ok rs, t'))
    by (eexists; eexists; vm_compute; reflexivity).
  destruct E as (rs & t' & E). exists rs, t'. split; [exact E |].
  exact (proj1 (audit_code_quality_results _ _ _ _ _ E)).
Defined.

Lemma nothing_missing {A : Type} (f : A -> bool) (l : list A) :
  negb (nonempty (filter (fun x => negb (f x)) l)) = true <->
  (forall x, In x l -> f x = true).
Proof.
  induction l as [| a l IH]; simpl.
  - split; [intros _ x [] | reflexivity].
  - destruct (f a) eqn:Ea; simpl.
    + rewrite IH. split.
      * intros H x [<- | Hx]; [exact Ea | exact (H x Hx)].
      * intros H x Hx. apply H. right. exact Hx.
    + split; [discriminate |].
      intro H. specialize (H a (or_introl eq_refl)). congruence.
Qed.

(** X3. When the content creator source exists and the code-quality runner
    returns, its first result is [code_linkedin_methods]; it is [pass]
    exactly when each of the six required method names occurs in the text,
    and its details split the required names into those found and those
    missing. *)
Theorem audit_code_quality_methods
  (w : World) (self : LinkedInAutomationAuditor)
  (t : nat) (rs : list AuditResult) (t' : nat) :
  path_exists (child (base_dir self) "linkedin-content-creator.cjs") = true ->
  audit_code_quality w self t = (Ok rs, t') ->
  exists (content : string) (methods : AuditResult)
         (found missing : list string),
    read_text utf8 (child (base_dir self) "linkedin-content-creator.cjs")
    = Ok content /\
    nth_error rs 0 = Some methods /\
    name methods = "code_linkedin_methods" /\
    (status methods = "pass" <->
     forall m, In m required_methods -> str_in m content = true) /\
    details methods = Some [("found", VList (map VStr found));
                            ("missing", VList (map VStr missing))] /\
    (forall m, In m found <->
               In m required_methods /\ str_in m content = true) /\
    (forall m, In m missing <->
               In m required_methods /\ str_in m content = false) /\
    List.length found + List.length missing = 6.
Proof.
  intros Hex H.
  destruct (audit_code_quality_returns w self t rs t' H)
    as (creator & server & handling & t1 & t2 & -> & Hc & _ & _).
  apply check_creator_returns in Hc.
  destruct Hc as [(Hno & _)
                 | (_ & content & m & tp & Hread & -> & _ & Nm & Sm & Dm & _)];
    [congruence |].
  exists content, m.
  exists (filter (fun x => str_in x content) required_methods).
  exists (filter (fun x => negb (str_in x content)) required_methods).
  split; [exact Hread |]. split; [reflexivity |]. split; [exact Nm |].
  split; [| split; [exact Dm | split; [| split]]].
  - rewrite Sm. rewrite <- nothing_missing.
    destruct (negb _); split; intro; congruence.
  - intro x. rewrite filter_In. reflexivity.
  - intro x. rewrite filter_In. rewrite Bool.negb_true_iff. reflexivity.
  - rewrite filter_length. reflexivity.
Qed.

(** On the full project the creator source names one of the six methods,
    so the result is there and is not [pass]. *)
Lemma audit_code_quality_methods_witness :
  exists rs t' methods,
    audit_code_quality full_world (auditor_of full_world) 0 = (Ok rs, t') /\
    nth_error rs 0 = Some methods /\
    name methods = "code_linkedin_methods".
Proof.
  assert (E : exists rs t',
             audit_code_quality full_world (auditor_of full_world) 0
             = (Ok rs, t'))
    by (eexists; eexists; vm_compute; reflexivity).
  destruct E as (rs & t' & E).
  destruct (audit_code_quality_methods full_world (auditor_of full_world)
              _ _ _ eq_refl E)
    as (content & methods & found & missing & _ & Hnth & Hname & _).
  exists rs, t', methods. auto.
Defined.

(** X4. Whenever the code-quality runner returns, its last result is
    [code_error_handling], with the number of [*.cjs] files that contain
    [try {] and the number of [*.cjs] files in its details; it is [pass]
    exactly when more than three files contain the marker, so a project of
    three source files or fewer is always rated [warn]. *)
Theorem audit_code_quality_error_handling
  (w : World) (self : LinkedInAutomationAuditor)
  (t : nat) (rs : list AuditResult) (t' : nat) :
  audit_code_quality w self t = (Ok rs, t') ->
  let js_files := glob (base_dir self) "*.cjs" in
  exists (front : list AuditResult) (handling : AuditResult),
    rs = (front ++ [handling])%list /\
    name handling = "code_error_handling" /\
    details handling
    = Some [("files_with_handling",
             VInt (Z.of_nat (List.length (filter has_try_block js_files))));
            ("total_files", VInt (Z.of_nat (List.length js_files)))] /\
    (status handling = "pass" <->
     3 < List.length (filter has_try_block js_files)) /\
    (List.length js_files <= 3 -> status handling = "warn").
Proof.
  intros H js_files.
  destruct (audit_code_quality_returns w self t rs t' H)
    as (creator & server & handling & t1 & t2 & -> & _ & _ & Hh).
  apply check_error_handling_returns in Hh.
  destruct Hh as (_ & _ & Nh & Sh & Dh). fold js_files in Sh, Dh.
  exists (creator ++ server)%list, handling.
  split; [rewrite app_assoc; reflexivity |].
  split; [exact Nh |]. split; [exact Dh |]. rewrite Sh.
  pose proof (filter_length_le has_try_block js_files) as Hle.
  destruct (Nat.ltb_spec 3 (List.length (filter has_try_block js_files)));
    split; try (split; intro); try intro; try congruence; try lia.
Qed.

(** The full project has five source files, four of them with the marker:
    the result is [pass]. *)
Lemma audit_code_quality_error_handling_witness :
  exists rs t' front handling,
    audit_code_quality full_world (auditor_of full_world) 0 = (Ok rs, t') /\
    rs = (front ++ [handling])%list /\
    status handling = "pass".
Proof.
  assert (E : exists rs t',
             audit_code_quality full_world (auditor_of full_world) 0
             = (Ok rs, t'))
    by (eexists; eexists; vm_compute; reflexivity).
  destruct E as (rs & t' & E).
  destruct (audit_code_quality_error_handling _ _ _ _ _ E)
    as (front & handling & Hrs & _ & _ & Hpass & _).
  exists rs, t', front, handling. split; [exact E |]. split; [exact Hrs |].
  apply Hpass. vm_compute. lia.
Defined.

(** X5. The code-quality runner returns exactly when every [*.cjs] entry of
    the project directory can be read as UTF-8 text; a single source file
    that cannot be read makes the runner raise (where the security scan
    skips such a file). *)
Theorem audit_code_quality_returns_iff
  (w : World) (self : LinkedInAutomationAuditor) (t : nat) :
  returns (audit_code_quality w self) t <->
  Forall (readable utf8) (glob (base_dir self) "*.cjs").
Proof.
  split.
  - intros (rs & t' & H).
    destruct (audit_code_quality_returns w self t rs t' H)
      as (creator & server & handling & t1 & t2 & _ & _ & _ & Hh).
    apply check_error_handling_returns in Hh. exact (proj1 Hh).
  - intro Hall.
    assert (Hfile :
      forall name, fnmatch "*.cjs" name = true ->
                   path_exists (child (base_dir self) name) = true ->
                   readable utf8 (child (base_dir self) name)).
    { intros name Hm Hex.
      exact (proj1 (Forall_forall _ _) Hall _
               (child_in_glob _ _ _ Hex Hm)). }
    unfold returns, audit_code_quality, bind.
    unfold check_creator. cbv zeta.
    destruct (path_exists
                (child (base_dir self) "linkedin-content-creator.cjs"))
      eqn:Ec.
    + destruct (Hfile "linkedin-content-creator.cjs" eq_refl Ec)
        as [content Hc].
      unfold bind, lift. rewrite Hc. unfold new_AuditResult, ret.
      unfold check_server_endpoints. cbv zeta.
      destruct (path_exists
                  (child (base_dir self) "zapier-webhook-server.cjs"))
        eqn:Es.
      * destruct (Hfile "zapier-webhook-server.cjs" eq_refl Es)
          as [content' Hs].
        unfold bind, lift. rewrite Hs. unfold new_AuditResult, ret.
        unfold check_error_handling, bind, lift.
        rewrite (count_try_catch_readable _ 0 Hall).
        eexists. eexists. reflexivity.
      * unfold ret, check_error_handling, bind, lift.
        rewrite (count_try_catch_readable _ 0 Hall).
        eexists. eexists. reflexivity.
    + unfold ret, check_server_endpoints. cbv zeta.
      destruct (path_exists
                  (child (base_dir self) "zapier-webhook-server.cjs"))
        eqn:Es.
      * destruct (Hfile "zapier-webhook-server.cjs" eq_refl Es)
          as [content' Hs].
        unfold bind, lift. rewrite Hs. unfold new_AuditResult, ret.
        unfold check_error_handling, bind, lift.
        rewrite (count_try_catch_readable _ 0 Hall).
        eexists. eexists. reflexivity.
      * unfold ret, check_error_handling, bind, lift.
        rewrite (count_try_catch_readable _ 0 Hall).
        eexists. eexists. reflexivity.
Qed.

(** A source file that cannot be decoded makes the code-quality runner
    raise, while the security runner returns. *)
Example unreadable_source_file :
  ~ returns (audit_code_quality binary_creator_world
               (auditor_of binary_creator_world)) 0 /\
  returns (@audit_security sample_lib binary_creator_world
             (auditor_of binary_creator_world)) 0.
Proof.
  split.
  - intros (rs & t' & H). vm_compute in H. discriminate H.
  - eexists. eexists. vm_compute. reflexivity.
Qed.

(* ===================================================================== *)
(** ** Further properties: patterns and substrings *)
(* ===================================================================== *)

Lemma str_app_nil_r (s : string) : s ++ "" = s.
Proof. induction s as [| c s IH]; simpl; [| rewrite IH]; reflexivity. Qed.

Lemma str_app_assoc (a b c : string) : (a ++ b) ++ c = a ++ b ++ c.
Proof. induction a as [| x a IH]; simpl; [| rewrite IH]; reflexivity. Qed.

Lemma str_length_app (a b : string) :
  String.length (a ++ b) = String.length a + String.length b.
Proof. induction a as [| x a IH]; simpl; [| rewrite IH]; reflexivity. Qed.

Lemma fnmatch_star_step (p n : string) :
  fnmatch (String "*"%char p) n
  = fnmatch p n ||
    match n with
    | EmptyString => false
    | String _ n' => fnmatch (String "*"%char p) n'
    end.
Proof. destruct n; reflexivity. Qed.

Lemma fnmatch_star (p n : string) :
  fnmatch (String "*"%char p) n = true <->
  exists pre rest, n = pre ++ rest /\ fnmatch p rest = true.
Proof.
  induction n as [| c n IH]; rewrite fnmatch_star_step.
  - rewrite Bool.orb_false_r. split.
    + intro H. exists "", "". auto.
    + intros (pre & rest & E & H).
      destruct pre; [| discriminate E]. simpl in E. subst rest. exact H.
  - rewrite Bool.orb_true_iff, IH. split.
    + intros [H | (pre & rest & -> & H)].
      * exists "", (String c n). auto.
      * exists (String c pre), rest. auto.
    + intros (pre & rest & E & H). destruct pre as [| d pre].
      * simpl in E. subst rest. left. exact H.
      * simpl in E. injection E as -> ->. right. exists pre, rest. auto.
Qed.

Lemma fnmatch_char (c : ascii) (p n : string) :
  Ascii.eqb c "*"%char = false ->
  fnmatch (String c p) n
  = match n with
    | EmptyString => false
    | String d n' => Ascii.eqb c d && fnmatch p n'
    end.
Proof. intro H. simpl. rewrite H. reflexivity. Qed.

Lemma fnmatch_prefix (a p n : string) :
  star_free a = true ->
  (fnmatch (a ++ p) n = true <->
   exists rest, n = a ++ rest /\ fnmatch p rest = true).
Proof.
  revert n. induction a as [| c a IH]; intros n Ha.
  - simpl. split; [intro H; exists n; auto | intros (rest & -> & H); exact H].
  - simpl in Ha. apply Bool.andb_true_iff in Ha. destruct Ha as [Hc Ha].
    apply Bool.negb_true_iff in Hc.
    cbn [append]. rewrite (fnmatch_char _ _ _ Hc).
    destruct n as [| d n].
    + split; [discriminate | intros (rest & E & _); discriminate E].
    + rewrite Bool.andb_true_iff, (IH n Ha). split.
      * intros [Hcd (rest & -> & H)]. apply Ascii.eqb_eq in Hcd. subst d.
        exists rest. auto.
      * intros (rest & E & H). injection E as -> ->.
        split; [apply Ascii.eqb_refl | exists rest; auto].
Qed.

Lemma fnmatch_literal (b n : string) :
  star_free b = true -> (fnmatch b n = true <-> n = b).
Proof.
  intro Hb. rewrite <- (str_app_nil_r b) at 1.
  rewrite (fnmatch_prefix b "" n Hb). split.
  - intros (rest & -> & H). destruct rest; [| discriminate H].
    apply str_app_nil_r.
  - intros ->. exists "". split; [symmetry; apply str_app_nil_r |].
    reflexivity.
Qed.

(** A pattern with one star matches the names that begin with what stands
    before the star and end with what stands after it. *)
Lemma fnmatch_one_star (a b n : string) :
  star_free a = true -> star_free b = true ->
  (fnmatch (a ++ String "*"%char b) n = true <->
   exists mid, n = a ++ mid ++ b).
Proof.
  intros Ha Hb. rewrite (fnmatch_prefix a _ n Ha). split.
  - intros (rest & -> & H). apply fnmatch_star in H.
    destruct H as (pre & rest' & -> & H).
    apply (fnmatch_literal b rest' Hb) in H. subst rest'.
    exists pre. reflexivity.
  - intros (mid & ->). exists (mid ++ b). split; [reflexivity |].
    apply fnmatch_star. exists mid, b. split; [reflexivity |].
    apply (fnmatch_literal b b Hb). reflexivity.
Qed.

Lemma nonempty_exists {A : Type} (l : list A) :
  nonempty l = true <-> exists x, In x l.
Proof.
  destruct l as [| a l]; simpl.
  - split; [discriminate | intros (x & [])].
  - split; [intros _; exists a; left; reflexivity | reflexivity].
Qed.

(** The entries that a one-star pattern selects. *)
Lemma glob_one_star (p : Path) (a b : string) (q : Path) :
  star_free a = true -> star_free b = true ->
  (In q (glob p (a ++ String "*"%char b)) <->
   In q (iterdir p) /\ exists mid, path_name q = a ++ mid ++ b).
Proof.
  intros Ha Hb. unfold glob. rewrite filter_In.
  rewrite (fnmatch_one_star a b _ Ha Hb). reflexivity.
Qed.

Lemma prefix_spec (a s : string) :
  String.prefix a s = true <-> exists post, s = a ++ post.
Proof.
  revert s. induction a as [| c a IH]; intro s.
  - split; [intros _; exists s; reflexivity |].
    intros _. destruct s; reflexivity.
  - destruct s as [| d s]; simpl.
    + split; [discriminate | intros (post & E); discriminate E].
    + destruct (ascii_dec c d) as [-> | Hcd].
      * rewrite IH. split.
        -- intros (post & ->). exists post. reflexivity.
        -- intros (post & E). injection E as ->. exists post. reflexivity.
      * split; [discriminate |].
        intros (post & E). injection E as -> _. contradiction.
Qed.

Lemma str_in_step (sub s : string) :
  str_in sub s
  = String.prefix sub s ||
    match s with
    | EmptyString => false
    | String _ s' => str_in sub s'
    end.
Proof. destruct s; reflexivity. Qed.

(** [sub in s] holds exactly when [sub] occurs somewhere in [s]. *)
Lemma str_in_spec (sub s : string) :
  str_in sub s = true <-> exists pre post, s = pre ++ sub ++ post.
Proof.
  induction s as [| c s IH]; rewrite str_in_step, Bool.orb_true_iff.
  - rewrite prefix_spec. split.
    + intros [(post & E) | H]; [| discriminate H].
      exists "", post. exact E.
    + intros (pre & post & E). left. destruct pre; [| discriminate E].
      exists post. exact E.
  - rewrite prefix_spec, IH. split.
    + intros [(post & E) | (pre & post & ->)].
      * exists "", post. exact E.
      * exists (String c pre), post. reflexivity.
    + intros (pre & post & E). destruct pre as [| d pre].
      * left. exists post. exact E.
      * right. simpl in E. injection E as _ ->. exists pre, post.
        reflexivity.
Qed.

(* ===================================================================== *)
(** ** Further properties: the data-integrity runner *)
(* ===================================================================== *)

Section Data.

Context {lib : PyLib}.
Variable w : World.

Let news_file : Path := child (DATA_DIR w) "latest-dutch-news.json".
Let weekly_file : Path := child (DATA_DIR w) "weekly-top-articles.json".

(** The three ways in which the check of the latest-news artifact
    returns. *)
Lemma check_latest_news_cases (t : nat) (r : AuditResult) (t' : nat) :
  check_latest_news w t = (Ok r, t') ->
  t' = S t /\ name r = "data_latest_news" /\
  ((path_exists news_file = false /\
    status r = "warn" /\ details r = None) \/
   (path_exists news_file = true /\
    exists msg,
      json_load news_file = Raise (JSONDecodeError msg) /\
      status r = "fail" /\
      message r = "latest-dutch-news.json: Invalid JSON - " ++ msg /\
      details r = None) \/
   (path_exists news_file = true /\
    exists d categories sources,
      json_load news_file = Ok (VDict d) /\
      py_len (value_at "categories" (VList []) d) = Ok categories /\
      py_len (value_at "sources" (VList []) d) = Ok sources /\
      status r = "pass" /\
      details r
      = Some [("total_articles", value_at "totalArticles" (VInt 0) d);
              ("categories", VInt (Z.of_nat categories));
              ("sources", VInt (Z.of_nat sources))])).
Proof.
  unfold check_latest_news, value_at. cbv zeta. fold news_file.
  destruct (path_exists news_file).
  - unfold try_except, bind at 1, lift at 1.
    destruct (json_load news_file) as [data | e].
    + destruct data; try (intro H; simpl in H; discriminate H).
      intro H. unfold bind, lift, py_get in H. simpl in H.
      destruct (py_len (match dict_get "categories" entries with
                        | Some v => v
                        | None => VList []
                        end)) as [categories | e1] eqn:E1; simpl in H;
        [| rewrite (py_len_raises _ _ E1) in H; discriminate H].
      destruct (py_len (match dict_get "sources" entries with
                        | Some v => v
                        | None => VList []
                        end)) as [sources | e2] eqn:E2; simpl in H;
        [| rewrite (py_len_raises _ _ E2) in H; discriminate H].
      injection H as <- <-. split; [reflexivity |]. split; [reflexivity |].
      right. right. split; [reflexivity |].
      exists entries, categories, sources. auto 10.
    + destruct e; simpl; intro H; try discriminate H.
      injection H as <- <-. split; [reflexivity |]. split; [reflexivity |].
      right. left. split; [reflexivity |]. exists msg. auto.
  - intro H. injection H as <- <-. auto 10.
Qed.

(** What the check of the latest-news artifact does on an object. *)
Lemma check_latest_news_on_object (d : dict) (t : nat) :
  path_exists news_file = true ->
  json_load news_file = Ok (VDict d) ->
  check_latest_news w t
  = match py_len (value_at "categories" (VList []) d) with
    | Raise e => (Raise e, t)
    | Ok categories =>
        match py_len (value_at "sources" (VList []) d) with
        | Raise e => (Raise e, t)
        | Ok sources =>
            new_AuditResult w "data_latest_news" "pass"
              ("latest-dutch-news.json: "
                 ++ str_of_value (value_at "totalArticles" (VInt 0) d)
                 ++ " articles, " ++ str_of_nat categories ++ " categories")
              (Some [("total_articles",
                      value_at "totalArticles" (VInt 0) d);
                     ("categories", VInt (Z.of_nat categories));
                     ("sources", VInt (Z.of_nat sources))]) t
        end
    end.
Proof.
  intros Hex Hload. unfold check_latest_news. cbv zeta. fold news_file.
  rewrite Hex. unfold try_except, bind, lift, py_get. rewrite Hload.
  unfold value_at.
  destruct (py_len (match dict_get "categories" d with
                    | Some v => v
                    | None => VList []
                    end)) as [categories | e1] eqn:E1.
  - destruct (py_len (match dict_get "sources" d with
                      | Some v => v
                      | None => VList []
                      end)) as [sources | e2] eqn:E2.
    + reflexivity.
    + rewrite (py_len_raises _ _ E2). reflexivity.
  - rewrite (py_len_raises _ _ E1). reflexivity.
Qed.




End Data.


(** X7. Whenever the data runner returns, its first result is
    [data_latest_news]: [warn] without details when the file is missing;
    [fail] with the text of the parse error in the message when it is
    invalid JSON; [pass] when it holds an object, with the value under
    [totalArticles] (0 when the key is absent) and the lengths of the values
    under [categories] and [sources] (0 when the key is absent) in the
    details. *)
Theorem audit_data_latest_news
  (lib : PyLib) (w : World) (t : nat) (rs : list AuditResult) (t' : nat) :
  audit_data w t = (Ok rs, t') ->
  let news_file := child (DATA_DIR w) "latest-dutch-news.json" in
  exists news,
    nth_error rs 0 = Some news /\
    name news = "data_latest_news" /\
    ((path_exists news_file = false /\
      status news = "warn" /\ details news = None) \/
     (path_exists news_file = true /\
      exists msg,
        json_load news_file = Raise (JSONDecodeError msg) /\
        status news = "fail" /\
        message news = "latest-dutch-news.json: Invalid JSON - " ++ msg /\
        details news = None) \/
     (path_exists news_file = true /\
      exists d categories sources,
        json_load news_file = Ok (VDict d) /\
        py_len (value_at "categories" (VList []) d) = Ok categories /\
        py_len (value_at "sources" (VList []) d) = Ok sources /\
        status news = "pass" /\
        details news
        = Some [("total_articles", value_at "totalArticles" (VInt 0) d);
                ("categories", VInt (Z.of_nat categories));
                ("sources", VInt (Z.of_nat sources))])).
Proof.
  intros H news_file. unfold audit_data in H.
  apply bind_returns in H. destruct H as (news & t1 & Hnews & H).
  apply bind_returns in H. destruct H as (weekly & t2 & _ & H).
  apply bind_returns in H. destruct H as (backups & t3 & _ & H).
  injection H as <- _.
  exists news. split; [reflexivity |].
  apply check_latest_news_cases in Hnews.
  destruct Hnews as (_ & Hname & Hcases). split; [exact Hname |].
  exact Hcases.
Qed.

(** On the full project the artifact is an object with 12 articles and no
    [categories] key: the result is [pass] and counts no category. *)
Lemma audit_data_latest_news_witness :
  exists rs t' news,
    @audit_data sample_lib full_world 0 = (Ok rs, t') /\
    nth_error rs 0 = Some news /\
    status news = "pass" /\
    details news = Some [("total_articles", VInt 12);
                         ("categories", VInt 0);
                         ("sources", VInt 0)].
Proof.
  assert (E : exists rs t',
             @audit_data sample_lib full_world 0 = (Ok rs, t'))
    by (eexists; eexists; vm_compute; reflexivity).
  destruct E as (rs & t' & E).
  destruct (@audit_data_latest_news sample_lib full_world 0 rs t' E)
    as (news & Hnth & _ & Hcases).
  exists rs, t', news. split; [exact E |]. split; [exact Hnth |].
  destruct Hcases as [(Hno & _) | [(_ & msg & Hm & _)
                     | (_ & d & c & s & Hd & Hc & Hs & Hst & Hdt)]].
  - vm_compute in Hno. discriminate Hno.
  - vm_compute in Hm. discriminate Hm.
  - vm_compute in Hd. injection Hd as <-.
    vm_compute in Hc. injection Hc as <-.
    vm_compute in Hs. injection Hs as <-.
    split; [exact Hst | exact Hdt].
Defined.

(** X8. When the latest-news artifact holds an object whose value under
    [categories] has no length (a number, [true], [false] or [null]), the
    data runner raises the [TypeError] of [len]: the handler for parse
    errors does not catch it and no result is returned. *)
Theorem audit_data_raises_on_unsized_categories
  (lib : PyLib) (w : World) (d : dict) (e : exn) (t : nat) :
  path_exists (child (DATA_DIR w) "latest-dutch-news.json") = true ->
  json_load (child (DATA_DIR w) "latest-dutch-news.json") = Ok (VDict d) ->
  py_len (value_at "categories" (VList []) d) = Raise e ->
  audit_data w t = (Raise e, t) /\
  e = TypeError
        ("object of type '"
           ++ type_name (value_at "categories" (VList []) d)
           ++ "' has no len()").
Proof.
  intros Hex Hload Hlen. split.
  - unfold audit_data, bind.
    rewrite (check_latest_news_on_object w d t Hex Hload), Hlen.
    reflexivity.
  - destruct (value_at "categories" (VList []) d); simpl in Hlen;
      try discriminate Hlen; injection Hlen as <-; reflexivity.
Qed.

(** The artifact of this world is an object with 5 under [categories]. *)
Lemma audit_data_raises_on_unsized_categories_witness :
  @audit_data categories_number_lib categories_number_world 0
  = (Raise (TypeError "object of type 'int' has no len()"), 0).
Proof.
  apply (@audit_data_raises_on_unsized_categories categories_number_lib
           categories_number_world [("categories", VInt 5)]
           (TypeError "object of type 'int' has no len()") 0);
    reflexivity.
Defined.

(** X9. Whenever the data runner returns, its third result is
    [data_backups], with the number of entries of the data directory whose
    name starts with [sheets-backup-] and ends with [.json] in its details;
    it is [pass] when there is such an entry and [info] when there is none,
    never [warn] or [fail]. *)
Theorem audit_data_backups
  (lib : PyLib) (w : World) (t : nat) (rs : list AuditResult) (t' : nat) :
  audit_data w t = (Ok rs, t') ->
  exists backups,
    nth_error rs 2 = Some backups /\
    name backups = "data_backups" /\
    (status backups = "pass" <->
     exists q, In q (iterdir (DATA_DIR w)) /\
               exists mid, path_name q = "sheets-backup-" ++ mid ++ ".json")
    /\ (status backups = "info" <-> status backups <> "pass") /\
    details backups
    = Some [("count",
             VInt (Z.of_nat
                     (List.length
                        (filter
                           (fun q => fnmatch "sheets-backup-*.json"
                                       (path_name q))
                           (iterdir (DATA_DIR w))))))].
Proof.
  intro H. unfold audit_data in H.
  apply bind_returns in H. destruct H as (news & t1 & _ & H).
  apply bind_returns in H. destruct H as (weekly & t2 & _ & H).
  apply bind_returns in H. destruct H as (backups & t3 & Hb & H).
  injection H as <- _. injection Hb as <- _.
  eexists. split; [reflexivity |]. split; [reflexivity |].
  cbn [status details].
  set (found := glob (DATA_DIR w) "sheets-backup-*.json").
  assert (Hfound : nonempty found = true <->
                   exists q, In q (iterdir (DATA_DIR w)) /\
                             exists mid,
                               path_name q
                               = "sheets-backup-" ++ mid ++ ".json").
  { rewrite nonempty_exists. split.
    - intros (q & Hq). exists q.
      apply (glob_one_star (DATA_DIR w) "sheets-backup-" ".json" q
               eq_refl eq_refl). exact Hq.
    - intros (q & Hq). exists q.
      apply (glob_one_star (DATA_DIR w) "sheets-backup-" ".json" q
               eq_refl eq_refl). exact Hq. }
  split; [| split; [| reflexivity]].
  - rewrite <- Hfound. destruct (nonempty found); split; congruence.
  - destruct (nonempty found); split; congruence.
Qed.

(** The data directory of the full project holds one backup. *)
Lemma audit_data_backups_witness :
  exists rs t' backups,
    @audit_data sample_lib full_world 0 = (Ok rs, t') /\
    nth_error rs 2 = Some backups /\
    status backups = "pass".
Proof.
  assert (E : exists rs t',
             @audit_data sample_lib full_world 0 = (Ok rs, t'))
    by (eexists; eexists; vm_compute; reflexivity).
  destruct E as (rs & t' & E).
  destruct (@audit_data_backups sample_lib full_world 0 rs t' E)
    as (backups & Hnth & _ & Hpass & _).
  exists rs, t', backups. split; [exact E |]. split; [exact Hnth |].
  apply Hpass.
  exists {| path_str := "/srv/app/data/sheets-backup-2025-01-05.json";
            path_name := "sheets-backup-2025-01-05.json";
            target := Some (text_file "[]" 22) |}.
  split; [vm_compute; auto | exists "2025-01-05"; reflexivity].
Defined.

(* ===================================================================== *)
(** ** Further properties: the content-quality runner *)
(* ===================================================================== *)

(** The results of the content runner when the directory exists. *)
Lemma audit_linkedin_content_returns
  (w : World) (t : nat) (rs : list AuditResult) (t' : nat) :
  path_exists (CONTENT_DIR w) = true ->
  audit_linkedin_content w t = (Ok rs, t') ->
  exists r1 r2 r3 r4 qs metadata,
    rs = ([r1; r2; r3; r4] ++ qs ++ [metadata])%list /\
    map name [r1; r2; r3; r4]
    = ["content_weeklyRoundup"; "content_insightPost";
       "content_trendAnalysis"; "content_longFormArticle"] /\
    Forall2 (fun content_type r =>
               status r = (if nonempty (glob (CONTENT_DIR w)
                                          ("*-" ++ content_type ++ ".md"))
                           then "pass" else "info"))
      CONTENT_TYPES [r1; r2; r3; r4] /\
    ((glob (CONTENT_DIR w) "*.md" = [] /\ qs = []) \/
     (exists f fs content q,
        glob (CONTENT_DIR w) "*.md" = f :: fs /\
        read_text utf8 (max_by stat_mtime f fs) = Ok content /\
        qs = [q] /\
        name q = "content_quality" /\
        status q = (if (100 <? word_count_of content)%nat
                       && has_hashtags_of content && has_dutch_of content
                    then "pass" else "warn") /\
        message q = "Latest content: "
                      ++ path_name (max_by stat_mtime f fs) ++ " ("
                      ++ str_of_nat (word_count_of content) ++ " words)" /\
        details q
        = Some [("file", VStr (path_name (max_by stat_mtime f fs)));
                ("word_count", VInt (Z.of_nat (word_count_of content)));
                ("has_hashtags", VBool (has_hashtags_of content));
                ("has_dutch_keywords", VBool (has_dutch_of content))])) /\
    name metadata = "content_metadata" /\
    status metadata = (if nonempty (glob (CONTENT_DIR w) "*-metadata.json")
                       then "pass" else "info").
Proof.
  intros Hex H. unfold audit_linkedin_content in H.
  rewrite Hex in H. simpl negb in H. cbv iota in H.
  apply bind_returns in H. destruct H as (by_type & t1 & Hby & H).
  apply bind_returns in H. destruct H as (qs & t2 & Hq & H).
  apply bind_returns in H. destruct H as (metadata & t3 & Hm & H).
  injection H as <- _. injection Hm as <- _.
  apply by_type_results in Hby.
  destruct Hby as (_ & r1 & r2 & r3 & r4 & -> & Hnames & Hstatus).
  exists r1, r2, r3, r4, qs. eexists.
  split; [reflexivity |]. split; [exact Hnames |]. split; [exact Hstatus |].
  split; [| split; reflexivity].
  unfold analyze_latest_content in Hq.
  destruct (glob (CONTENT_DIR w) "*.md") as [| f fs].
  - injection Hq as <- _. left. auto.
  - right.
    apply bind_returns in Hq. destruct Hq as (content & t4 & Hread & Hq).
    apply bind_returns in Hq. destruct Hq as (q & t5 & Hquality & Hq).
    injection Hq as <- _. injection Hread as Hread _.
    injection Hquality as <- _.
    exists f, fs, content. eexists.
    split; [reflexivity |]. split; [exact Hread |].
    split; [reflexivity |]. simpl. auto 10.
Qed.

Lemma content_type_pattern (content_type : string) (p q : Path) :
  In content_type CONTENT_TYPES ->
  (In q (glob p ("*-" ++ content_type ++ ".md")) <->
   In q (iterdir p) /\
   exists stem, path_name q = stem ++ "-" ++ content_type ++ ".md").
Proof.
  intro Hct.
  assert (Hfree : star_free ("-" ++ content_type ++ ".md") = true).
  { simpl in Hct.
    repeat (destruct Hct as [<- | Hct]; [reflexivity |]). contradiction. }
  exact (glob_one_star p "" ("-" ++ content_type ++ ".md") q eq_refl Hfree).
Qed.

(** X10. Whenever the content runner returns on an existing content
    directory, its first four results are the counts of the four content
    types, in the order of [CONTENT_TYPES]; the result of a type is [pass]
    when some entry of the directory is named [<stem>-<type>.md] and
    [info] when none is. *)
Theorem audit_linkedin_content_by_type
  (w : World) (t : nat) (rs : list AuditResult) (t' : nat) :
  path_exists (CONTENT_DIR w) = true ->
  audit_linkedin_content w t = (Ok rs, t') ->
  Forall2
    (fun content_type r =>
       name r = "content_" ++ content_type /\
       (status r = "pass" <->
        exists q, In q (iterdir (CONTENT_DIR w)) /\
                  exists stem,
                    path_name q = stem ++ "-" ++ content_type ++ ".md") /\
       (status r = "info" <-> status r <> "pass"))
    CONTENT_TYPES (firstn 4 rs).
Proof.
  intros Hex H.
  destruct (audit_linkedin_content_returns w t rs t' Hex H)
    as (r1 & r2 & r3 & r4 & qs & metadata & -> & Hnames & Hstatus & _).
  cbn [firstn app]. injection Hnames as N1 N2 N3 N4.
  assert (Hone :
    forall content_type r,
      In content_type CONTENT_TYPES ->
      status r = (if nonempty (glob (CONTENT_DIR w)
                                 ("*-" ++ content_type ++ ".md"))
                  then "pass" else "info") ->
      (status r = "pass" <->
       exists q, In q (iterdir (CONTENT_DIR w)) /\
                 exists stem,
                   path_name q = stem ++ "-" ++ content_type ++ ".md") /\
      (status r = "info" <-> status r <> "pass")).
  { intros ct r Hct Hs.
    assert (Hfound :
      nonempty (glob (CONTENT_DIR w) ("*-" ++ ct ++ ".md")) = true <->
      exists q, In q (iterdir (CONTENT_DIR w)) /\
                exists stem, path_name q = stem ++ "-" ++ ct ++ ".md").
    { rewrite nonempty_exists. split; intros (q & Hq); exists q;
        apply (content_type_pattern ct (CONTENT_DIR w) q Hct); exact Hq. }
    rewrite <- Hfound, Hs.
    destruct (nonempty _); repeat split; congruence. }
  unfold CONTENT_TYPES in *.
  inversion Hstatus as [| ? ? ? ? S1 H1]; subst.
  inversion H1 as [| ? ? ? ? S2 H2]; subst.
  inversion H2 as [| ? ? ? ? S3 H3]; subst.
  inversion H3 as [| ? ? ? ? S4 H4]; subst.
  apply Forall2_cons;
    [split; [exact N1 | apply Hone; [simpl; auto | exact S1]] |].
  apply Forall2_cons;
    [split; [exact N2 | apply Hone; [simpl; auto | exact S2]] |].
  apply Forall2_cons;
    [split; [exact N3 | apply Hone; [simpl; auto | exact S3]] |].
  apply Forall2_cons;
    [split; [exact N4 | apply Hone; [simpl; auto | exact S4]] |].
  apply Forall2_nil.
Qed.

(** The content directory of the full project holds a weekly roundup and an
    insight post and no trend analysis. *)
Lemma audit_linkedin_content_by_type_witness :
  exists rs t',
    audit_linkedin_content full_world 0 = (Ok rs, t') /\
    map status (firstn 4 rs) = ["pass"; "pass"; "info"; "info"].
Proof.
  assert (E : audit_linkedin_content full_world 0 = full_content_run)
    by (vm_compute; reflexivity).
  unfold full_content_run in E.
  pose proof (audit_linkedin_content_by_type full_world 0 _ _ eq_refl E)
    as H.
  eexists. eexists. split; [exact E |]. reflexivity.
Defined.

(** X11. Whenever the content runner returns, it has one result when the
    content directory is absent, and otherwise four per-type counts, one
    quality result if the directory has a markdown entry, and the metadata
    count, which comes last and is [pass] when some entry is named
    [<stem>-metadata.json] and [info] otherwise. No content result is ever
    [fail]. *)
Theorem audit_linkedin_content_shape
  (w : World) (t : nat) (rs : list AuditResult) (t' : nat) :
  audit_linkedin_content w t = (Ok rs, t') ->
  List.length rs
  = (if path_exists (CONTENT_DIR w)
     then 4 + (if nonempty (glob (CONTENT_DIR w) "*.md") then 1 else 0) + 1
     else 1) /\
  Forall (fun r => status r = "pass" \/ status r = "warn" \/
                   status r = "info") rs /\
  (path_exists (CONTENT_DIR w) = true ->
   exists front metadata,
     rs = (front ++ [metadata])%list /\
     name metadata = "content_metadata" /\
     (status metadata = "pass" <->
      exists q, In q (iterdir (CONTENT_DIR w)) /\
                exists stem, path_name q = stem ++ "-metadata.json") /\
     (status metadata = "info" <-> status metadata <> "pass")).
Proof.
  intro H. destruct (path_exists (CONTENT_DIR w)) eqn:Hex.
  - destruct (audit_linkedin_content_returns w t rs t' Hex H)
      as (r1 & r2 & r3 & r4 & qs & metadata & -> & _ & Hstatus & Hq & Nm
          & Sm).
    split; [| split].
    + rewrite !length_app.
      destruct Hq as [(-> & ->) | (f & fs & c & q & -> & _ & -> & _)];
        reflexivity.
    + inversion Hstatus as [| ? ? ? ? S1 H1]; subst.
      inversion H1 as [| ? ? ? ? S2 H2]; subst.
      inversion H2 as [| ? ? ? ? S3 H3]; subst.
      inversion H3 as [| ? ? ? ? S4 H4]; subst.
      assert (Hqs : Forall (fun r => status r = "pass" \/ status r = "warn"
                                     \/ status r = "info") qs).
      { destruct Hq as [(_ & ->)
                       | (f & fs & c & q & _ & _ & -> & _ & Sq & _)].
        - constructor.
        - apply Forall_cons; [| apply Forall_nil]. rewrite Sq.
          destruct (_ && _ && _); tauto. }
      cbn [app].
      repeat (apply Forall_cons;
              [match goal with
               | E : status ?r = _ |- context [status ?r] => rewrite E
               end;
               match goal with
               | |- context [if ?b then _ else _] => destruct b
               end; tauto |]).
      apply Forall_app. split; [exact Hqs |].
      apply Forall_cons; [| apply Forall_nil]. rewrite Sm.
      destruct (nonempty _); tauto.
    + intros _. exists ([r1; r2; r3; r4] ++ qs)%list, metadata.
      split; [rewrite <- app_assoc; reflexivity |]. split; [exact Nm |].
      assert (Hfound :
        nonempty (glob (CONTENT_DIR w) "*-metadata.json") = true <->
        exists q, In q (iterdir (CONTENT_DIR w)) /\
                  exists stem, path_name q = stem ++ "-metadata.json").
      { rewrite nonempty_exists. split; intros (q & Hq'); exists q;
          apply (glob_one_star (CONTENT_DIR w) "" "-metadata.json" q
                   eq_refl eq_refl); exact Hq'. }
      rewrite <- Hfound, Sm.
      destruct (nonempty _); repeat split; congruence.
  - unfold audit_linkedin_content in H. rewrite Hex in H. simpl in H.
    injection H as <- _.
    split; [reflexivity |]. split; [| discriminate].
    apply Forall_cons; [simpl; tauto | apply Forall_nil].
Qed.

(** The content directory of the full project gives six results, the last
    of them [pass] for its metadata file. *)
Lemma audit_linkedin_content_shape_witness :
  exists rs t',
    audit_linkedin_content full_world 0 = (Ok rs, t') /\
    List.length rs = 6.
Proof.
  assert (E : audit_linkedin_content full_world 0 = full_content_run)
    by (vm_compute; reflexivity).
  unfold full_content_run in E.
  eexists. eexists. split; [exact E |].
  exact (proj1 (audit_linkedin_content_shape full_world 0 _ _ E)).
Defined.


(** When the latest markdown file cannot be decoded, the content runner
    raises, although the other file is fine. *)
Example unreadable_latest_post :
  ~ returns (audit_linkedin_content binary_post_world) 0.
Proof. intros (rs & t' & H). vm_compute in H. discriminate H. Qed.

(** [max_by] returns the first of the items that have the greatest key. *)
Lemma max_by_first {A : Type} (key : A -> Z) (xs : list A) (x : A) :
  exists before after,
    x :: xs = (before ++ max_by key x xs :: after)%list /\
    Forall (fun y => (key y < key (max_by key x xs))%Z) before /\
    Forall (fun y => (key y <= key (max_by key x xs))%Z) after.
Proof.
  unfold max_by. revert x.
  induction xs as [| y ys IH]; intro x.
  - exists [], []. simpl. auto.
  - cbn [fold_left].
    destruct (Z.ltb_spec (key x) (key y)) as [Hlt | Hge]; cbv iota.
    + destruct (IH y) as (before & after & E & Hb & Ha).
      exists (x :: before), after. split; [simpl; rewrite E; reflexivity |].
      split; [| exact Ha]. apply Forall_cons; [| exact Hb].
      destruct before as [| b before].
      * simpl in E. injection E as E _. rewrite <- E. exact Hlt.
      * simpl in E. injection E as -> _.
        inversion Hb; subst. lia.
    + destruct (IH x) as (before & after & E & Hb & Ha).
      destruct before as [| b before].
      * set (m := fold_left _ ys x) in *.
        simpl in E. injection E as E1 E2.
        exists [], (y :: after).
        split; [simpl; rewrite <- E1, <- E2; reflexivity |].
        split; [constructor |].
        apply Forall_cons; [rewrite <- E1; exact Hge | exact Ha].
      * simpl in E. injection E as E1 E2.
        exists (b :: y :: before), after.
        split; [simpl; f_equal; [exact E1 | f_equal; exact E2] |].
        split; [| exact Ha].
        apply Forall_cons_iff in Hb. destruct Hb as [Hb1 Hb2].
        apply Forall_cons; [exact Hb1 |].
        apply Forall_cons; [rewrite E1 in Hge; lia | exact Hb2].
Qed.

(** X13. When the content directory has markdown entries and the runner
    returns, the file rated by [content_quality] is, among the entries with
    the greatest modification time, the one listed first: every entry
    before it is strictly older and no entry after it is newer. Its name,
    its word count and the two flags are in the details of the result. *)
Theorem audit_linkedin_content_latest_file
  (w : World) (t : nat) (rs : list AuditResult) (t' : nat) :
  path_exists (CONTENT_DIR w) = true ->
  glob (CONTENT_DIR w) "*.md" <> [] ->
  audit_linkedin_content w t = (Ok rs, t') ->
  exists before latest after content quality,
    glob (CONTENT_DIR w) "*.md" = (before ++ latest :: after)%list /\
    Forall (fun g => (stat_mtime g < stat_mtime latest)%Z) before /\
    Forall (fun g => (stat_mtime g <= stat_mtime latest)%Z) after /\
    read_text utf8 latest = Ok content /\
    nth_error rs 4 = Some quality /\
    details quality
    = Some [("file", VStr (path_name latest));
            ("word_count", VInt (Z.of_nat (List.length (split content))));
            ("has_hashtags", VBool (str_in "#" content));
            ("has_dutch_keywords",
             VBool (existsb (fun word => str_in word (lower content))
                      ["recruitment"; "nederlandse"; "arbeidsmarkt"]))].
Proof.
  intros Hex Hmd H.
  destruct (audit_linkedin_content_returns w t rs t' Hex H)
    as (r1 & r2 & r3 & r4 & qs & metadata & -> & _ & _ & Hq & _).
  destruct Hq as [(Hnone & _) | (f & fs & c & q & Hg & Hread & -> & _ & _
                                 & _ & Dq)]; [contradiction |].
  destruct (max_by_first stat_mtime fs f) as (before & after & E & Hb & Ha).
  exists before, (max_by stat_mtime f fs), after, c, q.
  split; [rewrite Hg; exact E |]. split; [exact Hb |]. split; [exact Ha |].
  split; [exact Hread |]. split; [reflexivity | exact Dq].
Qed.

(** The two markdown files of this world have the same modification time:
    the one listed first is rated. *)
Lemma audit_linkedin_content_latest_file_witness :
  exists rs t' quality,
    audit_linkedin_content tied_posts_world 0 = (Ok rs, t') /\
    nth_error rs 4 = Some quality /\
    dict_get "file" (match details quality with
                     | Some d => d
                     | None => []
                     end) = Some (VStr "a-weeklyRoundup.md").
Proof.
  assert (E : exists rs t',
             audit_linkedin_content tied_posts_world 0 = (Ok rs, t'))
    by (eexists; eexists; vm_compute; reflexivity).
  destruct E as (rs & t' & E).
  assert (Hmd : glob (CONTENT_DIR tied_posts_world) "*.md" <> [])
    by (vm_compute; discriminate).
  destruct (audit_linkedin_content_latest_file tied_posts_world 0 rs t'
              eq_refl Hmd E)
    as (before & latest & after & content & quality & Hg & Hb & _ & _
        & Hnth & Hd).
  exists rs, t', quality. split; [exact E |]. split; [exact Hnth |].
  rewrite Hd. cbn [dict_get String.eqb Ascii.eqb Bool.eqb]. do 2 f_equal.
  vm_compute in Hg.
  destruct before as [| b before].
  - simpl in Hg. injection Hg as <- _. reflexivity.
  - simpl in Hg. injection Hg as <- Hg.
    destruct before as [| b' before].
    + simpl in Hg. injection Hg as <- _.
      inversion Hb as [| ? ? Hlt _]; subst. vm_compute in Hlt.
      discriminate Hlt.
    + simpl in Hg. injection Hg as _ Hg. destruct before; discriminate Hg.
Defined.

(** X14. When the content runner returns and one of the per-type counts is
    [pass], the directory has a markdown entry, so the quality of the
    latest file is rated: there are six results and the fifth is
    [content_quality]. *)
Theorem audit_linkedin_content_typed_file_rated
  (w : World) (t : nat) (rs : list AuditResult) (t' : nat) (r : AuditResult) :
  path_exists (CONTENT_DIR w) = true ->
  audit_linkedin_content w t = (Ok rs, t') ->
  In r (firstn 4 rs) ->
  status r = "pass" ->
  List.length rs = 6 /\
  exists quality,
    nth_error rs 4 = Some quality /\ name quality = "content_quality".
Proof.
  intros Hex H Hin Hpass.
  destruct (audit_linkedin_content_returns w t rs t' Hex H)
    as (r1 & r2 & r3 & r4 & qs & metadata & -> & _ & Hstatus & Hq & _).
  assert (Hmd : exists q, In q (glob (CONTENT_DIR w) "*.md")).
  { assert (Hone :
      forall ct r0, In ct CONTENT_TYPES ->
        status r0 = (if nonempty (glob (CONTENT_DIR w)
                                    ("*-" ++ ct ++ ".md"))
                     then "pass" else "info") ->
        status r0 = "pass" ->
        exists q, In q (glob (CONTENT_DIR w) "*.md")).
    { intros ct r0 Hct Hs Hp. rewrite Hp in Hs.
      destruct (nonempty (glob (CONTENT_DIR w) ("*-" ++ ct ++ ".md")))
        eqn:Hn; [| discriminate Hs].
      apply nonempty_exists in Hn. destruct Hn as (q & Hq0).
      apply (content_type_pattern ct (CONTENT_DIR w) q Hct) in Hq0.
      destruct Hq0 as (Hiter & stem & Hname).
      exists q.
      apply (glob_one_star (CONTENT_DIR w) "" ".md" q eq_refl eq_refl).
      split; [exact Hiter |]. exists (stem ++ "-" ++ ct).
      rewrite Hname. cbn [append]. rewrite !str_app_assoc. reflexivity. }
    unfold CONTENT_TYPES in Hstatus.
    inversion Hstatus as [| ? ? ? ? S1 H1]; subst.
    inversion H1 as [| ? ? ? ? S2 H2]; subst.
    inversion H2 as [| ? ? ? ? S3 H3]; subst.
    inversion H3 as [| ? ? ? ? S4 H4]; subst.
    cbn [firstn app] in Hin.
    destruct Hin as [<- | [<- | [<- | [<- | []]]]].
    - apply (Hone "weeklyRoundup" r1); [simpl; auto | exact S1 | exact Hpass].
    - apply (Hone "insightPost" r2); [simpl; auto | exact S2 | exact Hpass].
    - apply (Hone "trendAnalysis" r3); [simpl; auto | exact S3 | exact Hpass].
    - apply (Hone "longFormArticle" r4);
        [simpl; auto 10 | exact S4 | exact Hpass]. }
  destruct Hmd as (q0 & Hq0).
  destruct Hq as [(Hnone & _) | (f & fs & c & q & _ & _ & -> & Nq & _)].
  - rewrite Hnone in Hq0. contradiction.
  - split; [reflexivity |]. exists q. split; [reflexivity | exact Nq].
Qed.

(** The weekly roundup of the full project is counted, and the latest file
    is rated. *)
Lemma audit_linkedin_content_typed_file_rated_witness :
  exists rs t',
    audit_linkedin_content full_world 0 = (Ok rs, t') /\
    List.length rs = 6.
Proof.
  assert (E : audit_linkedin_content full_world 0 = full_content_run)
    by (vm_compute; reflexivity).
  unfold full_content_run in E.
  eexists. eexists. split; [exact E |].
  refine (proj1 (audit_linkedin_content_typed_file_rated full_world 0 _ _ _
                   eq_refl E _ _)).
  - left. reflexivity.
  - reflexivity.
Defined.

Lemma append_char_not_empty (word : string) (c : ascii) :
  String.eqb (word ++ String c EmptyString) "" = false.
Proof. destruct word; reflexivity. Qed.

(** Each word but the last is followed by a whitespace character. *)
Lemma split_from_length (word s : string) :
  2 * List.length (split_from word s)
  <= String.length s + (if String.eqb word "" then 1 else 2).
Proof.
  revert word. induction s as [| c s IH]; intro word.
  - simpl. destruct (String.eqb word ""); simpl; lia.
  - cbn [split_from String.length]. destruct (isspace c).
    + specialize (IH ""). change (String.eqb "" "") with true in IH.
      cbv iota in IH.
      destruct (String.eqb word ""); cbn [List.length]; lia.
    + specialize (IH (word ++ String c EmptyString)).
      rewrite append_char_not_empty in IH.
      destruct (String.eqb word ""); lia.
Qed.

(** X15. A latest file of 200 characters or fewer cannot hold more than 100
    words, so whenever the runner rates such a file the result is [warn],
    whatever the text says. *)
Theorem audit_linkedin_content_short_text
  (w : World) (t : nat) (rs : list AuditResult) (t' : nat)
  (f : Path) (fs : list Path) (content : string) :
  path_exists (CONTENT_DIR w) = true ->
  glob (CONTENT_DIR w) "*.md" = f :: fs ->
  read_text utf8 (max_by stat_mtime f fs) = Ok content ->
  String.length content <= 200 ->
  audit_linkedin_content w t = (Ok rs, t') ->
  exists quality,
    nth_error rs 4 = Some quality /\
    name quality = "content_quality" /\
    status quality = "warn".
Proof.
  intros Hex Hg Hread Hshort H.
  destruct (audit_linkedin_content_returns w t rs t' Hex H)
    as (r1 & r2 & r3 & r4 & qs & metadata & -> & _ & _ & Hq & _).
  destruct Hq as [(Hnone & _) | (f' & fs' & c & q & Hg' & Hread' & -> & Nq
                                 & Sq & _)]; [congruence |].
  rewrite Hg in Hg'. injection Hg' as <- <-.
  rewrite Hread in Hread'. injection Hread' as <-.
  exists q. split; [reflexivity |]. split; [exact Nq |].
  rewrite Sq. unfold word_count_of, split.
  pose proof (split_from_length "" content) as Hwords.
  change (String.eqb "" "") with true in Hwords. cbv iota in Hwords.
  assert (Hfew : (100 <? List.length (split_from "" content))%nat = false)
    by (apply Nat.ltb_ge; lia).
  rewrite Hfew. reflexivity.
Qed.

(** The latest post of the full project has 19 characters. *)
Lemma audit_linkedin_content_short_text_witness :
  exists rs t' quality,
    audit_linkedin_content full_world 0 = (Ok rs, t') /\
    nth_error rs 4 = Some quality /\
    status quality = "warn".
Proof.
  assert (E : audit_linkedin_content full_world 0 = full_content_run)
    by (vm_compute; reflexivity).
  unfold full_content_run in E.
  assert (Hshort : String.length short_post <= 200) by (vm_compute; lia).
  destruct (audit_linkedin_content_short_text full_world 0 _ _ _ _
              short_post eq_refl eq_refl eq_refl Hshort E)
    as (quality & Hnth & _ & Hs).
  eexists. eexists. exists quality. split; [exact E |]. auto.
Defined.
